(** * proxy_toggle_pro.py: the proxy profile state manager

    A shallow embedding of the non-graphical core of [proxy_toggle_pro.py]:
    [ProxyConfig] (the JSON configuration file), [ProxyManager] (the proxy
    values of the registry key [Internet Settings]) and the two methods of
    [ProxyToggleWidget] that change the [enabled] flags, [toggle_proxy] and
    [update_ui].

    Python code runs here in a state-and-exception monad over a [world]
    holding the widget's profile list, the registry key, the configuration
    file, the calls of the operating system that currently fail, and the
    trace of the effects performed so far.

    What is left out: the Tk widgets (the calls of [set_state], which only
    redraw the switches; they are added in [toggle_proxy_switches] and
    [update_ui_switches]); floating-point numbers among the JSON values; the
    text of an exception after the colon of a printed message.  The json
    module is an interface, [Json]; a printer and parser for the JSON the
    program writes implements it further down.  The widget calls
    [load_proxies] once, at start-up, so the list [DEFAULT_PROXIES] has its
    initial value whenever it is returned. *)

From Stdlib Require Import ZArith NArith Ascii.
From stdpp Require Import base option list strings pretty gmap.

Local Open Scope string_scope.
Local Open Scope nat_scope.
Local Open Scope list_scope.
Set Warnings "-register-all".

(** ** Python values *)

(** The objects [json.load] and [winreg.QueryValueEx] hand to the program.
    A [dict] keeps its insertion order, as in Python. *)
Inductive value : Type :=
| VNone
| VBool (b : bool)
| VInt (n : Z)
| VStr (s : string)
| VList (l : list value)
| VDict (d : list (string * value)).

(** Truth value of an object, as tested by [if x:]. *)
Definition truthy (v : value) : bool :=
  match v with
  | VNone => false
  | VBool b => b
  | VInt n => negb (n =? 0)%Z
  | VStr s => negb (String.eqb s "")
  | VList l => negb (bool_decide (l = []))
  | VDict d => negb (bool_decide (d = []))
  end.

(** [v == s] for a [str] object [s]: only an equal string compares equal. *)
Definition str_eq (v : value) (s : string) : bool :=
  match v with
  | VStr t => String.eqb t s
  | _ => false
  end.

(** ** Profiles *)

(** One entry of [self.proxies]: a dict with the keys [name], [server] and
    [enabled]. *)
Record proxy : Type := Proxy {
  name : string;
  server : string;
  enabled : bool
}.

(** [proxy['enabled'] = b] *)
Definition with_enabled (b : bool) (p : proxy) : proxy :=
  {| name := name p; server := server p; enabled := b |}.

Definition proxy_value (p : proxy) : value :=
  VDict [("name", VStr (name p)); ("server", VStr (server p));
         ("enabled", VBool (enabled p))].

Definition profiles_value (ps : list proxy) : value :=
  VList (proxy_value <$> ps).

Definition default_profiles : list proxy :=
  [ Proxy "Office Proxy" "http://proxy-example.corp.com:912" false;
    Proxy "VPN Proxy" "http://vpn-proxy.example.com:8080" false ].

Definition DEFAULT_PROXIES : value :=
  VList
    [ VDict [("name", VStr "Office Proxy");
             ("server", VStr "http://proxy-example.corp.com:912");
             ("enabled", VBool false)];
      VDict [("name", VStr "VPN Proxy");
             ("server", VStr "http://vpn-proxy.example.com:8080");
             ("enabled", VBool false)] ].

(** ** The world *)

Inductive access : Type := KEY_READ | KEY_WRITE.
Inductive mode : Type := mode_r | mode_w.

(** The calls into the operating system that can raise. *)
Inductive api : Type :=
| OpenKey (a : access)
| QueryValueEx (value_name : string)
| SetValueEx (value_name : string)
| CloseKey
| InternetSetOptionW
| open_file (m : mode)
| read_file
| write_file.

(** The messages printed by the [except] clauses (the text of the exception
    that follows the colon is left out). *)
Inductive diagnostic : Type :=
| Error_loading_config
| Error_saving_config
| Error_reading_proxy
| Error_setting_proxy.

(** What the program does to the outside, in order. *)
Inductive event : Type :=
| Print (d : diagnostic)
| RegSet (value_name : string) (data : value)
| InternetSetOption (option : Z)
| FileWrite (text : string).

(** [faulty] tells which calls raise for the time being; like the registry
    and the file it changes only from outside the program. *)
Record world : Type := World {
  proxies : list proxy;                 (* self.proxies *)
  internet_settings : gmap string value;(* values of HKCU\...\Internet Settings *)
  config_file : option string;          (* text of CONFIG_FILE, if it exists *)
  faulty : api → bool;                  (* the calls that raise at present *)
  trace : list event                    (* effects so far, oldest first *)
}.

Definition set_proxies (ps : list proxy) (w : world) : world :=
  {| proxies := ps; internet_settings := internet_settings w;
     config_file := config_file w; faulty := faulty w; trace := trace w |}.

Definition set_internet_settings (r : gmap string value) (w : world) : world :=
  {| proxies := proxies w; internet_settings := r;
     config_file := config_file w; faulty := faulty w; trace := trace w |}.

Definition set_config_file (f : option string) (w : world) : world :=
  {| proxies := proxies w; internet_settings := internet_settings w;
     config_file := f; faulty := faulty w; trace := trace w |}.

Definition emit (e : event) (w : world) : world :=
  {| proxies := proxies w; internet_settings := internet_settings w;
     config_file := config_file w; faulty := faulty w;
     trace := trace w ++ [e] |}.

(** ** The monad of Python code *)

Inductive exn : Type :=
| OSError
| IndexError
| JSONDecodeError.

Inductive result (A : Type) : Type :=
| Ok (a : A)
| Raise (e : exn).
Arguments Ok {A} a.
Arguments Raise {A} e.

Definition M (A : Type) : Type := world → result A * world.

#[global] Instance M_ret : MRet M := λ A a w, (Ok a, w).

#[global] Instance M_bind : MBind M := λ A B f m w,
  match m w with
  | (Ok a, w') => f a w'
  | (Raise e, w') => (Raise e, w')
  end.

Definition raise {A : Type} (e : exn) : M A := λ w, (Raise e, w).

(** [try: body  except Exception as e: handler] *)
Definition try_except {A : Type} (body : M A) (handler : exn → M A) : M A :=
  λ w, match body w with
       | (Ok a, w') => (Ok a, w')
       | (Raise e, w') => handler e w'
       end.

Definition get_world : M world := λ w, (Ok w, w).
Definition modify (f : world → world) : M unit := λ w, (Ok tt, f w).

(** A call into the operating system: raises when the call is faulty. *)
Definition call (c : api) : M unit :=
  w ← get_world; if faulty w c then raise OSError else mret tt.

Definition print (d : diagnostic) : M unit := modify (emit (Print d)).

(** The final world and the outcome of running a piece of code. *)
Definition exec {A : Type} (m : M A) (w : world) : world := (m w).2.
Definition outcome {A : Type} (m : M A) (w : world) : result A := (m w).1.

(** ** winreg and wininet *)

Definition winreg_OpenKey (a : access) : M unit := call (OpenKey a).

(** [winreg.QueryValueEx(key, name)]: a missing value raises. *)
Definition winreg_QueryValueEx (value_name : string) : M value :=
  call (QueryValueEx value_name);;
  w ← get_world;
  match internet_settings w !! value_name with
  | Some v => mret v
  | None => raise OSError
  end.

Definition winreg_SetValueEx (value_name : string) (data : value) : M unit :=
  call (SetValueEx value_name);;
  modify (λ w, emit (RegSet value_name data)
                 (set_internet_settings (<[value_name := data]> (internet_settings w)) w)).

Definition winreg_CloseKey : M unit := call CloseKey.

Definition INTERNET_OPTION_SETTINGS_CHANGED : Z := 39%Z.
Definition INTERNET_OPTION_REFRESH : Z := 37%Z.

Definition internet_set_option (option : Z) : M unit :=
  call InternetSetOptionW;;
  modify (emit (InternetSetOption option)).

(** ** ProxyManager *)

Definition get_current_proxy : M value :=
  try_except
    (winreg_OpenKey KEY_READ;;
     proxy_enable ← winreg_QueryValueEx "ProxyEnable";
     if truthy proxy_enable then
       proxy_server ← winreg_QueryValueEx "ProxyServer";
       winreg_CloseKey;;
       mret proxy_server
     else
       winreg_CloseKey;;
       mret VNone)
    (λ _, print Error_reading_proxy;; mret VNone).

Definition set_proxy (proxy_server : value) : M bool :=
  try_except
    (winreg_OpenKey KEY_WRITE;;
     (if truthy proxy_server then
        winreg_SetValueEx "ProxyEnable" (VInt 1);;
        winreg_SetValueEx "ProxyServer" proxy_server
      else
        winreg_SetValueEx "ProxyEnable" (VInt 0);;
        winreg_SetValueEx "ProxyServer" (VStr ""));;
     winreg_CloseKey;;
     internet_set_option INTERNET_OPTION_SETTINGS_CHANGED;;
     internet_set_option INTERNET_OPTION_REFRESH;;
     mret true)
    (λ _, print Error_setting_proxy;; mret false).

(** ** The json module *)

(** [json.dump(obj, f, indent=2)] produces a text, [json.load(f)] turns a
    text into an object or raises ([None]).  The program only relies on
    this interface. *)
Class Json : Type := {
  json_dump : value → string;
  json_load : string → option value
}.

(** The contract of the json module that the configuration file relies on:
    the text written for a list of profiles is read back as that list. *)
Class JsonRoundTrip (J : Json) : Prop :=
  json_round_trip : ∀ ps : list proxy,
    json_load (json_dump (profiles_value ps)) = Some (profiles_value ps).

Section program.
Context {J : Json}.

(** ** Access to CONFIG_FILE *)

Definition os_path_exists : M bool :=
  w ← get_world;
  mret (match config_file w with Some _ => true | None => false end).

(** [with open(CONFIG_FILE, 'r') as f: ... f.read()] *)
Definition read_config : M string :=
  call (open_file mode_r);;
  w ← get_world;
  match config_file w with
  | None => raise OSError
  | Some text => call read_file;; mret text
  end.

(** [json.load(f)] *)
Definition json_load_file : M value :=
  text ← read_config;
  match json_load text with
  | Some v => mret v
  | None => raise JSONDecodeError
  end.

(** [with open(CONFIG_FILE, 'w') as f: json.dump(obj, f, indent=2)]:
    opening creates or empties the file, then the text is written. *)
Definition json_dump_file (obj : value) : M unit :=
  call (open_file mode_w);;
  modify (set_config_file (Some ""));;
  call write_file;;
  modify (λ w, emit (FileWrite (json_dump obj))
                 (set_config_file (Some (json_dump obj)) w)).

(** ** ProxyConfig *)

Definition save_proxies (proxies : value) : M unit :=
  try_except
    (json_dump_file proxies)
    (λ _, print Error_saving_config).

Definition load_proxies : M value :=
  try_except
    (os_path_exists ≫= λ file_exists : bool,
     if file_exists then
       json_load_file
     else
       save_proxies DEFAULT_PROXIES;;
       mret DEFAULT_PROXIES)
    (λ _, print Error_loading_config;; mret DEFAULT_PROXIES).

(** ** ProxyToggleWidget *)

(** The loop of [toggle_proxy]: every profile but [index] is switched off. *)
Definition turn_off_others (index : nat) (ps : list proxy) : list proxy :=
  imap (λ i p, if bool_decide (i ≠ index) then with_enabled false p else p) ps.

(** [is_active] of [update_ui] *)
Definition is_active (current_proxy : value) (p : proxy) : bool :=
  if truthy current_proxy then str_eq current_proxy (server p) else false.

(** The loop of [update_ui]: every flag becomes [is_active]. *)
Definition set_flags (current_proxy : value) (ps : list proxy) : list proxy :=
  (λ p, with_enabled (is_active current_proxy p) p) <$> ps.

Definition update_ui : M unit :=
  current_proxy ← get_current_proxy;
  modify (λ w, set_proxies (set_flags current_proxy (proxies w)) w).

Definition toggle_proxy (index : nat) : M unit :=
  (* Turn off all other proxies *)
  modify (λ w, set_proxies (turn_off_others index (proxies w)) w);;
  (* Toggle selected proxy *)
  w ← get_world;
  match proxies w !! index with
  | None => raise IndexError
  | Some p =>
    let p' := with_enabled (negb (enabled p)) p in
    modify (set_proxies (<[index := p']> (proxies w)));;
    (* Apply to Windows *)
    (if enabled p' then set_proxy (VStr (server p')) else set_proxy VNone);;
    (* Save config *)
    w ← get_world;
    save_proxies (profiles_value (proxies w));;
    update_ui
  end.

End program.

(** ** The operations of the state manager *)

(** The entry points under the names the specification gives them:
    [activate] is [toggle_proxy] and [refreshFromSystem] is [update_ui].
    The program has no operation of its own that deactivates: the proxy is
    switched off by [toggle_proxy] on the active profile. *)
Inductive operation : Type :=
| activate (index : nat)
| refreshFromSystem.

(** Between two calls anybody may change the registry, the file and what
    fails. *)
Inductive step : Type :=
| Call (o : operation)
| Outside (r : gmap string value) (f : option string) (flt : api → bool).

Section operations.
Context {J : Json}.

Definition perform (o : operation) : M unit :=
  match o with
  | activate index => toggle_proxy index
  | refreshFromSystem => update_ui
  end.

Definition do_step (s : step) (w : world) : world :=
  match s with
  | Call o => exec (perform o) w
  | Outside r f flt =>
    {| proxies := proxies w; internet_settings := r; config_file := f;
       faulty := flt; trace := trace w |}
  end.

(** The world after a history of steps, the oldest first. *)
Definition history (steps : list step) (w : world) : world :=
  foldl (λ w s, do_step s w) w steps.

End operations.

(** ** Notions used in the statements *)

(** What the registry read of [get_current_proxy] yields; [None] when one of
    its calls raises. *)
Definition read_registry (w : world) : option value :=
  if faulty w (OpenKey KEY_READ) then None
  else if faulty w (QueryValueEx "ProxyEnable") then None
  else match internet_settings w !! "ProxyEnable" with
       | None => None
       | Some proxy_enable =>
         if truthy proxy_enable then
           if faulty w (QueryValueEx "ProxyServer") then None
           else match internet_settings w !! "ProxyServer" with
                | None => None
                | Some proxy_server =>
                  if faulty w CloseKey then None else Some proxy_server
                end
         else if faulty w CloseKey then None else Some VNone
       end.

(** The object [get_current_proxy] returns in [w]. *)
Definition current_proxy (w : world) : value := default VNone (read_registry w).

(** Some call on the path of [get_current_proxy] raises. *)
Definition read_faulty (w : world) : bool :=
  faulty w (OpenKey KEY_READ) || faulty w (QueryValueEx "ProxyEnable")
  || faulty w (QueryValueEx "ProxyServer") || faulty w CloseKey.

(** Some call on the path of [set_proxy] raises: the system write fails. *)
Definition write_faulty (w : world) : bool :=
  faulty w (OpenKey KEY_WRITE) || faulty w (SetValueEx "ProxyEnable")
  || faulty w (SetValueEx "ProxyServer") || faulty w CloseKey
  || faulty w InternetSetOptionW.

(** Some call on the path of [save_proxies] raises. *)
Definition save_faulty (w : world) : bool :=
  faulty w (open_file mode_w) || faulty w write_file.

(** Some call on the reading path of [load_proxies] raises. *)
Definition load_faulty (w : world) : bool :=
  faulty w (open_file mode_r) || faulty w read_file.

(** The list after the first half of [toggle_proxy]: the others off, the
    selected profile flipped. *)
Definition toggled (index : nat) (ps : list proxy) : list proxy :=
  imap (λ i p, if bool_decide (i ≠ index) then with_enabled false p
               else with_enabled (negb (enabled p)) p) ps.

(** The world after a [set_proxy] none of whose calls raises. *)
Definition written (proxy_server : value) (w : world) : world :=
  let enable := if truthy proxy_server then VInt 1 else VInt 0 in
  let server := if truthy proxy_server then proxy_server else VStr "" in
  {| proxies := proxies w;
     internet_settings :=
       <["ProxyServer" := server]> (<["ProxyEnable" := enable]> (internet_settings w));
     config_file := config_file w;
     faulty := faulty w;
     trace := trace w ++ [ RegSet "ProxyEnable" enable; RegSet "ProxyServer" server;
                           InternetSetOption INTERNET_OPTION_SETTINGS_CHANGED;
                           InternetSetOption INTERNET_OPTION_REFRESH ] |}.

(** The argument [toggle_proxy] passes to [set_proxy] for the selected
    profile [p], as it is before the flip. *)
Definition write_argument (p : proxy) : value :=
  if negb (enabled p) then VStr (server p) else VNone.

(** The events with which [set_proxy] switches the system proxy off. *)
Definition disabling_write : list event :=
  [ RegSet "ProxyEnable" (VInt 0); RegSet "ProxyServer" (VStr "");
    InternetSetOption INTERNET_OPTION_SETTINGS_CHANGED;
    InternetSetOption INTERNET_OPTION_REFRESH ].

(** An event that changes the system proxy setting or the storage. *)
Definition is_write (e : event) : bool :=
  match e with
  | Print _ => false
  | RegSet _ _ | InternetSetOption _ | FileWrite _ => true
  end.

(** The number of profiles marked enabled. *)
Definition count_enabled (ps : list proxy) : nat :=
  length (filter (λ p, enabled p = true) ps).

(** No server string other than the empty one occurs in two profiles. *)
Definition distinct_servers (ps : list proxy) : Prop :=
  NoDup (filter (λ s, s ≠ "") (server <$> ps)).

(** ** A JSON codec

    An implementation of the [Json] interface for the fragment of JSON the
    program writes: [null], booleans, integers, strings whose characters are
    code points below 256, arrays and objects, laid out as
    [json.dump(..., indent=2)] lays them out. *)

Definition dquote : ascii := Eval cbv in ascii_of_nat 34.
Definition backslash : ascii := Eval cbv in ascii_of_nat 92.
Definition char_newline : ascii := Eval cbv in ascii_of_nat 10.
Definition char_return : ascii := Eval cbv in ascii_of_nat 13.
Definition char_tab : ascii := Eval cbv in ascii_of_nat 9.
Definition char_backspace : ascii := Eval cbv in ascii_of_nat 8.
Definition char_formfeed : ascii := Eval cbv in ascii_of_nat 12.

Definition hex_digit (n : N) : ascii :=
  ascii_of_N (if (n <? 10)%N then 48 + n else 87 + n)%N.

(** [ESCAPE_DCT] and the [\uXXXX] form of [py_encode_basestring_ascii] *)
Definition escape_char (c : ascii) : string :=
  let n := N_of_ascii c in
  if Ascii.eqb c dquote then String backslash (String dquote "")
  else if Ascii.eqb c backslash then String backslash (String backslash "")
  else if Ascii.eqb c char_newline then String backslash "n"
  else if Ascii.eqb c char_return then String backslash "r"
  else if Ascii.eqb c char_tab then String backslash "t"
  else if Ascii.eqb c char_backspace then String backslash "b"
  else if Ascii.eqb c char_formfeed then String backslash "f"
  else if ((32 <=? n) && (n <=? 126))%N then String c ""
  else String backslash
         (String "u" (String "0" (String "0"
            (String (hex_digit (n / 16)) (String (hex_digit (n mod 16)) ""))))).

Fixpoint escape (s : string) : string :=
  match s with
  | EmptyString => ""
  | String c s' => escape_char c +:+ escape s'
  end.

Definition encode_basestring_ascii (s : string) : string :=
  String dquote (escape s +:+ String dquote "").

(** A newline and the indentation of nesting level [level]. *)
Fixpoint spaces (n : nat) : string :=
  match n with
  | O => ""
  | S n' => String " " (spaces n')
  end.

Definition newline_indent (level : nat) : string :=
  String char_newline (spaces (2 * level)).

Fixpoint dumps (level : nat) (v : value) {struct v} : string :=
  match v with
  | VNone => "null"
  | VBool true => "true"
  | VBool false => "false"
  | VInt n => pretty n
  | VStr s => encode_basestring_ascii s
  | VList [] => "[]"
  | VList l =>
    "[" +:+ newline_indent (S level)
    +:+ String.concat ("," +:+ newline_indent (S level))
          (List.map (dumps (S level)) l)
    +:+ newline_indent level +:+ "]"
  | VDict [] => "{}"
  | VDict d =>
    "{" +:+ newline_indent (S level)
    +:+ String.concat ("," +:+ newline_indent (S level))
          (List.map (λ kv, encode_basestring_ascii kv.1 +:+ ": "
                           +:+ dumps (S level) kv.2) d)
    +:+ newline_indent level +:+ "}"
  end.

Definition is_whitespace (c : ascii) : bool :=
  Ascii.eqb c " " || Ascii.eqb c char_tab || Ascii.eqb c char_newline
  || Ascii.eqb c char_return.

Fixpoint skip_whitespace (s : string) : string :=
  match s with
  | EmptyString => s
  | String c s' => if is_whitespace c then skip_whitespace s' else s
  end.

Definition hex_value (c : ascii) : option N :=
  let n := N_of_ascii c in
  if ((48 <=? n) && (n <=? 57))%N then Some (n - 48)%N
  else if ((97 <=? n) && (n <=? 102))%N then Some (n - 87)%N
  else if ((65 <=? n) && (n <=? 70))%N then Some (n - 55)%N
  else None.

(** The character a backslash escape stands for ([BACKSLASH]). *)
Definition unescape (c : ascii) : option ascii :=
  if Ascii.eqb c dquote then Some dquote
  else if Ascii.eqb c backslash then Some backslash
  else if Ascii.eqb c "/" then Some "/"%char
  else if Ascii.eqb c "b" then Some char_backspace
  else if Ascii.eqb c "f" then Some char_formfeed
  else if Ascii.eqb c "n" then Some char_newline
  else if Ascii.eqb c "r" then Some char_return
  else if Ascii.eqb c "t" then Some char_tab
  else None.

Definition push (c : ascii) (r : option (string * string)) : option (string * string) :=
  '(s, rest) ← r; Some (String c s, rest).

(** Reads a string literal after its opening quote: the string and the
    text after the closing quote. *)
Fixpoint scanstring (s : string) : option (string * string) :=
  match s with
  | EmptyString => None
  | String c s1 =>
    if Ascii.eqb c dquote then Some ("", s1)
    else if Ascii.eqb c backslash then
      match s1 with
      | EmptyString => None
      | String e s2 =>
        if Ascii.eqb e "u" then
          match s2 with
          | String h1 (String h2 (String h3 (String h4 s3))) =>
            a ← hex_value h1; b ← hex_value h2;
            c ← hex_value h3; d ← hex_value h4;
            let n := (((a * 16 + b) * 16 + c) * 16 + d)%N in
            if (n <? 256)%N then push (ascii_of_N n) (scanstring s3) else None
          | _ => None
          end
        else
          ch ← unescape e; push ch (scanstring s2)
      end
    else if (N_of_ascii c <? 32)%N then None
    else push c (scanstring s1)
  end.

Definition is_digit (c : ascii) : bool :=
  ((48 <=? N_of_ascii c) && (N_of_ascii c <=? 57))%N.

(** Reads the digits at the head of [s] after the value [acc]. *)
Fixpoint scan_digits (acc : Z) (s : string) : Z * string :=
  match s with
  | String c s' =>
    if is_digit c then scan_digits (10 * acc + Z.of_N (N_of_ascii c - 48))%Z s'
    else (acc, s)
  | EmptyString => (acc, s)
  end.

Definition scan_integer (s : string) : option (Z * string) :=
  match s with
  | String "-" (String c s') =>
    if is_digit c then
      let '(n, r) := scan_digits 0 (String c s') in Some ((- n)%Z, r)
    else None
  | String c _ =>
    if is_digit c then Some (scan_digits 0 s) else None
  | EmptyString => None
  end.

Fixpoint parse_value (fuel : nat) (s : string) {struct fuel}
  : option (value * string) :=
  match fuel with
  | O => None
  | S fuel =>
    match skip_whitespace s with
    | String "n" (String "u" (String "l" (String "l" r))) => Some (VNone, r)
    | String "t" (String "r" (String "u" (String "e" r))) => Some (VBool true, r)
    | String "f" (String "a" (String "l" (String "s" (String "e" r)))) =>
      Some (VBool false, r)
    | String "[" s1 =>
      match skip_whitespace s1 with
      | String "]" r => Some (VList [], r)
      | _ => '(l, r) ← parse_array fuel s1; Some (VList l, r)
      end
    | String "{" s1 =>
      match skip_whitespace s1 with
      | String "}" r => Some (VDict [], r)
      | _ => '(d, r) ← parse_object fuel s1; Some (VDict d, r)
      end
    | String c s1 =>
      if Ascii.eqb c dquote then '(t, r) ← scanstring s1; Some (VStr t, r)
      else '(n, r) ← scan_integer (String c s1); Some (VInt n, r)
    | EmptyString => None
    end
  end
with parse_array (fuel : nat) (s : string) {struct fuel}
  : option (list value * string) :=
  match fuel with
  | O => None
  | S fuel =>
    '(v, r) ← parse_value fuel s;
    match skip_whitespace r with
    | String "," r1 => '(l, r2) ← parse_array fuel r1; Some (v :: l, r2)
    | String "]" r1 => Some ([v], r1)
    | _ => None
    end
  end
with parse_object (fuel : nat) (s : string) {struct fuel}
  : option (list (string * value) * string) :=
  match fuel with
  | O => None
  | S fuel =>
    match skip_whitespace s with
    | String c s1 =>
      if Ascii.eqb c dquote then
        '(k, r) ← scanstring s1;
        match skip_whitespace r with
        | String ":" r1 =>
          '(v, r2) ← parse_value fuel r1;
          match skip_whitespace r2 with
          | String "," r3 => '(d, r4) ← parse_object fuel r3; Some ((k, v) :: d, r4)
          | String "}" r3 => Some ([(k, v)], r3)
          | _ => None
          end
        | _ => None
        end
      else None
    | EmptyString => None
    end
  end.

(** The whole text must be one value, up to surrounding whitespace. *)
Definition loads (s : string) : option value :=
  '(v, r) ← parse_value (S (String.length s)) s;
  match skip_whitespace r with
  | EmptyString => Some v
  | _ => None
  end.

Definition codec : Json := {| json_dump := dumps 0; json_load := loads |}.

(** ** The claims as the specification words them

    Five sentences of the specification do not hold of the program as they
    are worded; they are written down here as worded, to be refuted on a
    concrete world further down. *)

Section as_stated.
Context {J : Json}.

(** A failing system write makes the activation fail with an error, puts
    the flags back and saves nothing. *)
Definition failed_write_rolls_back (index : nat) (w : world) : Prop :=
  (index < length (proxies w))%nat → write_faulty w = true →
  (∃ e, outcome (toggle_proxy index) w = Raise e)
  ∧ enabled <$> proxies (exec (toggle_proxy index) w) = enabled <$> proxies w
  ∧ config_file (exec (toggle_proxy index) w) = config_file w.

(** The indices of the activations in a history are within bounds. *)
Definition in_bounds (n : nat) (s : step) : Prop :=
  match s with
  | Call (activate index) => (index < n)%nat
  | _ => True
  end.

(** After any call that returns, at most one profile is enabled. *)
Definition single_active_after_calls (w : world) : Prop :=
  ∀ (steps : list step) (o : operation),
    Forall (in_bounds (length (proxies w))) (steps ++ [Call o]) →
    outcome (perform o) (history steps w) = Ok () →
    (count_enabled (proxies (exec (perform o) (history steps w))) ≤ 1)%nat.

(** Activating the same profile twice, both writes succeeding, leaves all
    profiles off and ends with a write that disables the proxy. *)
Definition toggle_twice_is_off (index : nat) (w : world) : Prop :=
  (index < length (proxies w))%nat → write_faulty w = false →
  let w1 := exec (toggle_proxy index) w in
  let w2 := exec (toggle_proxy index) w1 in
  (∀ p, p ∈ proxies w2 → enabled p = false)
  ∧ ∃ rest, trace w2 = trace w1 ++ disabling_write ++ rest.

End as_stated.

(** A profile is enabled by a refresh exactly when the system reports
    proxying enabled with a server string equal to the profile's. *)
Definition refresh_follows_system (w : world) : Prop :=
  ∀ (proxy_enable : Z) (proxy_server : string),
    read_faulty w = false →
    internet_settings w !! "ProxyEnable" = Some (VInt proxy_enable) →
    internet_settings w !! "ProxyServer" = Some (VStr proxy_server) →
    proxies (exec update_ui w) =
      (λ p, with_enabled
              (bool_decide (proxy_enable ≠ 0%Z ∧ proxy_server = server p)) p)
        <$> proxies w.

(** A profile as the specification describes one: a dict with the fields
    [name] and [server], two strings, and [enabled], a boolean. *)
Fixpoint field (key : string) (d : list (string * value)) : option value :=
  match d with
  | [] => None
  | (k, v) :: d => if String.eqb k key then Some v else field key d
  end.

Definition is_profile (v : value) : bool :=
  match v with
  | VDict d =>
      match field "name" d, field "server" d, field "enabled" d with
      | Some (VStr _), Some (VStr _), Some (VBool _) => true
      | _, _, _ => false
      end
  | _ => false
  end.

Definition is_profile_list (v : value) : bool :=
  match v with
  | VList l => forallb is_profile l
  | _ => false
  end.

(** The data of a file are malformed when they are not a list of profiles:
    the text is no JSON, or it is the JSON of something else. *)
Definition malformed {J : Json} (text : string) : Prop :=
  ∀ v, json_load text = Some v → is_profile_list v = false.

(** A file with malformed data makes [load_proxies] return the default
    profiles and print a diagnostic. *)
Definition malformed_gives_defaults {J : Json} (w : world) : Prop :=
  ∀ text, config_file w = Some text → malformed text →
    outcome load_proxies w = Ok DEFAULT_PROXIES
    ∧ ∃ message, trace (exec load_proxies w) = trace w ++ [Print message].

(** ** Concrete worlds *)

Definition no_faults : api → bool := λ _, false.

Definition registry_off : gmap string value :=
  {[ "ProxyEnable" := VInt 0; "ProxyServer" := VStr "" ]}.

Definition registry_on (proxy_server : string) : gmap string value :=
  {[ "ProxyEnable" := VInt 1; "ProxyServer" := VStr proxy_server ]}.

(** The default profiles, all off, on a system without proxy where the
    registry key cannot be opened for writing. *)
Definition world_read_only : world :=
  {| proxies := default_profiles;
     internet_settings := registry_off;
     config_file := Some (dumps 0 DEFAULT_PROXIES);
     faulty := λ c, match c with OpenKey KEY_WRITE => true | _ => false end;
     trace := [] |}.

(** Two profiles for one server, which is the system's proxy. *)
Definition world_twins : world :=
  {| proxies := [ Proxy "Office" "http://proxy.corp.com:912" false;
                  Proxy "Office (copy)" "http://proxy.corp.com:912" false ];
     internet_settings := registry_on "http://proxy.corp.com:912";
     config_file := None;
     faulty := no_faults;
     trace := [] |}.

(** One profile, active and in agreement with the system. *)
Definition world_active : world :=
  {| proxies := [ Proxy "Office" "http://proxy.corp.com:912" true ];
     internet_settings := registry_on "http://proxy.corp.com:912";
     config_file := None;
     faulty := no_faults;
     trace := [] |}.

(** A profile without server, on a system whose proxy is enabled with an
    empty server string. *)
Definition world_blank : world :=
  {| proxies := [ Proxy "Blank" "" false;
                  Proxy "Office" "http://proxy.corp.com:912" true ];
     internet_settings := registry_on "";
     config_file := None;
     faulty := no_faults;
     trace := [] |}.

(** The default profiles on a system without proxy, nothing failing,
    no configuration file yet. *)
Definition world_fresh : world :=
  {| proxies := default_profiles;
     internet_settings := registry_off;
     config_file := None;
     faulty := no_faults;
     trace := [] |}.

(** The registry cannot be read. *)
Definition world_unreadable : world :=
  {| proxies := [ Proxy "Office" "http://proxy.corp.com:912" true ];
     internet_settings := registry_on "http://proxy.corp.com:912";
     config_file := None;
     faulty := λ c, match c with OpenKey KEY_READ => true | _ => false end;
     trace := [] |}.

(** A configuration file that is not JSON. *)
Definition world_garbled : world :=
  {| proxies := [];
     internet_settings := registry_off;
     config_file := Some "[ { 'name': Office ";
     faulty := no_faults;
     trace := [] |}.

(** A configuration file that is JSON, but of a list of numbers. *)
Definition world_other_shape : world :=
  {| proxies := [];
     internet_settings := registry_off;
     config_file := Some "[1, 2]";
     faulty := no_faults;
     trace := [] |}.

(** ** Notions used in the further statements *)

(** The objects the program passes to [set_proxy]: a string or [None]. *)
Definition server_object (s : option string) : value := from_option VStr VNone s.

(** ** More concrete worlds *)

(** The proxy is off but the registry still holds an old server string, and
    the value [ProxyServer] cannot be written. *)
Definition world_torn : world :=
  {| proxies := default_profiles;
     internet_settings :=
       {[ "ProxyEnable" := VInt 0; "ProxyServer" := VStr "http://old.example:3128" ]};
     config_file := None;
     faulty := λ c, match c with
                    | SetValueEx "ProxyServer" => true
                    | _ => false
                    end;
     trace := [] |}.

(** Everything works but the notification of the other programs. *)
Definition world_unnotified : world :=
  {| proxies := default_profiles;
     internet_settings := registry_off;
     config_file := None;
     faulty := λ c, match c with InternetSetOptionW => true | _ => false end;
     trace := [] |}.

(** The value [ProxyEnable] is missing from the registry key. *)
Definition world_no_values : world :=
  {| proxies := default_profiles;
     internet_settings := ∅;
     config_file := None;
     faulty := no_faults;
     trace := [] |}.

(** A configuration file is there and cannot be opened for writing. *)
Definition world_locked_file : world :=
  {| proxies := default_profiles;
     internet_settings := registry_off;
     config_file := Some "[]";
     faulty := λ c, match c with open_file mode_w => true | _ => false end;
     trace := [] |}.

(** A configuration file is there; it can be opened for writing, but
    writing into it fails. *)
Definition world_disk_full : world :=
  {| proxies := default_profiles;
     internet_settings := registry_off;
     config_file := Some "[]";
     faulty := λ c, match c with write_file => true | _ => false end;
     trace := [] |}.

(** A configuration file is there and cannot be opened for reading. *)
Definition world_unreadable_file : world :=
  {| proxies := [];
     internet_settings := registry_off;
     config_file := Some (dumps 0 DEFAULT_PROXIES);
     faulty := λ c, match c with open_file mode_r => true | _ => false end;
     trace := [] |}.

(** The second default profile is active; the first has lost its server. *)
Definition world_blank_first : world :=
  {| proxies := [ Proxy "Office Proxy" "" false;
                  Proxy "VPN Proxy" "http://vpn-proxy.example.com:8080" true ];
     internet_settings := registry_on "http://vpn-proxy.example.com:8080";
     config_file := None;
     faulty := no_faults;
     trace := [] |}.

(** ** The switches: ModernToggle

    A [ModernToggle] keeps its position in [is_on] and paints it on its
    canvas with [draw].  Of the picture only the position it shows is kept
    here (the track is green and the knob on the right when it shows on);
    the coordinates of the shapes are left out. *)
Record switch : Type := Switch {
  is_on : bool;   (* self.is_on *)
  shown : bool    (* the position the canvas shows *)
}.

(** The switch as [__init__] leaves it: off, and drawn. *)
Definition new_switch : switch := {| is_on := false; shown := false |}.

(** [ModernToggle.draw] *)
Definition draw (t : switch) : switch := {| is_on := is_on t; shown := is_on t |}.

(** [ModernToggle.set_state]: painted again only when the position changes. *)
Definition set_state (state : bool) (t : switch) : switch :=
  if bool_decide (is_on t ≠ state) then draw {| is_on := state; shown := shown t |}
  else t.

(** The first two statements of [ModernToggle.toggle]; the third one calls
    the command. *)
Definition flip_switch (t : switch) : switch :=
  draw {| is_on := negb (is_on t); shown := shown t |}.

(** ** The widget with its switches *)

(** [ProxyToggleWidget]: the world of the program, of which [self.proxies]
    is a part, and the dict [self.proxy_toggles]. *)
Record widget : Type := Widget {
  state : world;
  proxy_toggles : gmap nat switch
}.

Definition set_state_world (w : world) (g : widget) : widget :=
  {| state := w; proxy_toggles := proxy_toggles g |}.

Definition set_proxy_toggles (ts : gmap nat switch) (g : widget) : widget :=
  {| state := state g; proxy_toggles := ts |}.

(** The exceptions of the code with switches: those of the code without,
    and the one of a dict. *)
Inductive ui_exn : Type :=
| Inner (e : exn)
| KeyError.

Inductive ui_result (A : Type) : Type :=
| Done (a : A)
| Raised (e : ui_exn).
Arguments Done {A} a.
Arguments Raised {A} e.

Definition UI (A : Type) : Type := widget → ui_result A * widget.

#[global] Instance UI_ret : MRet UI := λ A a g, (Done a, g).

#[global] Instance UI_bind : MBind UI := λ A B f m g,
  match m g with
  | (Done a, g') => f a g'
  | (Raised e, g') => (Raised e, g')
  end.

Definition ui_raise {A : Type} (e : ui_exn) : UI A := λ g, (Raised e, g).
Definition get_widget : UI widget := λ g, (Done g, g).
Definition ui_modify (f : widget → widget) : UI unit := λ g, (Done (), f g).

(** Code without switches, run on the world of the widget. *)
Definition lift {A : Type} (m : M A) : UI A := λ g,
  match m (state g) with
  | (Ok a, w) => (Done a, set_state_world w g)
  | (Raise e, w) => (Raised (Inner e), set_state_world w g)
  end.

(** [for i in l: body(i)] *)
Fixpoint for_each (l : list nat) (body : nat → UI unit) : UI unit :=
  match l with
  | [] => mret ()
  | i :: l' => body i;; for_each l' body
  end.

(** [self.proxies[i]['enabled'] = b] *)
Definition assign_enabled (i : nat) (b : bool) : UI unit :=
  g ← get_widget;
  match proxies (state g) !! i with
  | None => ui_raise (Inner IndexError)
  | Some p =>
    ui_modify (set_state_world
                 (set_proxies (<[i := with_enabled b p]> (proxies (state g))) (state g)))
  end.

(** [self.proxy_toggles[i].set_state(b)] *)
Definition toggle_set_state (i : nat) (b : bool) : UI unit :=
  g ← get_widget;
  match proxy_toggles g !! i with
  | None => ui_raise KeyError
  | Some t => ui_modify (set_proxy_toggles (<[i := set_state b t]> (proxy_toggles g)))
  end.

Section with_switches.
Context {J : Json}.

(** [update_ui], with the switches. *)
Definition update_ui_switches : UI unit :=
  current_proxy ← lift get_current_proxy;
  g ← get_widget;
  for_each (seq 0 (length (proxies (state g)))) (λ i,
    g ← get_widget;
    match proxies (state g) !! i with
    | None => mret ()
    | Some proxy =>
      toggle_set_state i (is_active current_proxy proxy);;
      assign_enabled i (is_active current_proxy proxy)
    end).

(** [toggle_proxy], with the switches. *)
Definition toggle_proxy_switches (index : nat) : UI unit :=
  (* Turn off all other proxies *)
  g ← get_widget;
  for_each (seq 0 (length (proxies (state g)))) (λ i,
    if bool_decide (i ≠ index) then
      assign_enabled i false;;
      toggle_set_state i false
    else mret ());;
  (* Toggle selected proxy *)
  g ← get_widget;
  match proxies (state g) !! index with
  | None => ui_raise (Inner IndexError)
  | Some p =>
    assign_enabled index (negb (enabled p));;
    (* Apply to Windows *)
    (if negb (enabled p) then lift (set_proxy (VStr (server p)))
     else lift (set_proxy VNone));;
    (* Save config *)
    g ← get_widget;
    lift (save_proxies (profiles_value (proxies (state g))));;
    update_ui_switches
  end.

(** A click on the switch at [index]: [ModernToggle.toggle], whose command
    is [toggle_proxy(index)] ([create_proxy_item]). *)
Definition click (index : nat) : UI unit :=
  g ← get_widget;
  match proxy_toggles g !! index with
  | None => mret ()
  | Some t =>
    ui_modify (set_proxy_toggles (<[index := flip_switch t]> (proxy_toggles g)));;
    toggle_proxy_switches index
  end.

End with_switches.

(** Every profile has its switch, as after [setup_ui]. *)
Definition switches_cover (g : widget) : Prop :=
  ∀ i, i < length (proxies (state g)) → is_Some (proxy_toggles g !! i).

(** Every switch is where its profile's flag is. *)
Definition switches_mirror (g : widget) : Prop :=
  ∀ i p, proxies (state g) !! i = Some p →
         ∃ t, proxy_toggles g !! i = Some t ∧ is_on t = enabled p.

(** Every canvas shows the position of its switch. *)
Definition switches_drawn (g : widget) : Prop :=
  ∀ i t, proxy_toggles g !! i = Some t → shown t = is_on t.

(** The widget as [__init__] has it before its first [update_ui]: a fresh
    switch for every profile. *)
Definition with_new_switches (w : world) : widget :=
  {| state := w;
     proxy_toggles := list_to_map ((λ i, (i, new_switch)) <$> seq 0 (length (proxies w))) |}.

(** The widget after the rounds [0 .. n-1] of a loop that, in round [i],
    replaces the profile [p] at [i] by [fp i p] and the switch [t] at [i]
    by [ft i p t]. *)
Definition looped (fp : nat → proxy → proxy) (ft : nat → proxy → switch → switch)
    (n : nat) (g : widget) : widget :=
  {| state :=
       set_proxies
         (imap (λ j p, if bool_decide (j < n) then fp j p else p) (proxies (state g)))
         (state g);
     proxy_toggles :=
       map_imap (λ j t, Some (if bool_decide (j < n)
                              then match proxies (state g) !! j with
                                   | Some p => ft j p t
                                   | None => t
                                   end
                              else t))
         (proxy_toggles g) |}.

(** The final widget and the outcome of running code with switches. *)
Definition ui_exec {A : Type} (m : UI A) (g : widget) : widget := (m g).2.
Definition ui_outcome {A : Type} (m : UI A) (g : widget) : ui_result A := (m g).1.

(** ** The window style: set_window_style *)

Definition WS_EX_NOACTIVATE : Z := 0x08000000%Z.
Definition WS_EX_TOOLWINDOW : Z := 0x00000080%Z.

(** [new_style = ex_style | WS_EX_NOACTIVATE | WS_EX_TOOLWINDOW], on
    Python's integers, [ex_style] being what [GetWindowLongW] returned. *)
Definition new_style (ex_style : Z) : Z :=
  Z.lor (Z.lor ex_style WS_EX_NOACTIVATE) WS_EX_TOOLWINDOW.

(** * Running the code *)

Ltac run_step :=
  repeat progress unfold try_except, call, get_world, modify, raise, print,
    winreg_OpenKey, winreg_QueryValueEx, winreg_SetValueEx,
    winreg_CloseKey, internet_set_option, mbind, M_bind, mret, M_ret;
  cbn.

Ltac run :=
  run_step;
  repeat (case_match; cbn in *; simplify_eq; try done).

Lemma bind_run {A B : Type} (m : M A) (f : A → M B) (w : world) :
  (m ≫= f) w =
    match m w with
    | (Ok a, w') => f a w'
    | (Raise e, w') => (Raise e, w')
    end.
Proof. reflexivity. Qed.

Lemma get_world_run (w : world) : get_world w = (Ok w, w).
Proof. reflexivity. Qed.

Lemma modify_run (f : world → world) (w : world) : modify f w = (Ok (), f w).
Proof. reflexivity. Qed.

(** *** get_current_proxy *)

Lemma get_current_proxy_run (w : world) :
  get_current_proxy w =
    (Ok (current_proxy w),
     match read_registry w with
     | Some _ => w
     | None => emit (Print Error_reading_proxy) w
     end).
Proof. unfold get_current_proxy, current_proxy, read_registry. run. Qed.

Lemma read_registry_ok (w : world) (proxy_enable proxy_server : value) :
  read_faulty w = false →
  internet_settings w !! "ProxyEnable" = Some proxy_enable →
  internet_settings w !! "ProxyServer" = Some proxy_server →
  read_registry w = Some (if truthy proxy_enable then proxy_server else VNone).
Proof.
  unfold read_faulty, read_registry. intros H He Hs.
  repeat (apply orb_false_elim in H as [H ?]).
  rewrite H, He, Hs. repeat case_match; simplify_eq; done.
Qed.

Lemma read_registry_ext (w w' : world) :
  internet_settings w' = internet_settings w → faulty w' = faulty w →
  read_registry w' = read_registry w.
Proof. unfold read_registry. by intros -> ->. Qed.

Lemma current_proxy_ext (w w' : world) :
  internet_settings w' = internet_settings w → faulty w' = faulty w →
  current_proxy w' = current_proxy w.
Proof. unfold current_proxy. intros. by rewrite (read_registry_ext w w'). Qed.

(** *** update_ui *)

Lemma update_ui_run (w : world) :
  update_ui w =
    (Ok (),
     set_proxies (set_flags (current_proxy w) (proxies w))
       match read_registry w with
       | Some _ => w
       | None => emit (Print Error_reading_proxy) w
       end).
Proof.
  unfold update_ui. rewrite bind_run, get_current_proxy_run.
  by destruct (read_registry w).
Qed.

(** *** set_proxy *)

Lemma set_proxy_run_ok (proxy_server : value) (w : world) :
  write_faulty w = false →
  set_proxy proxy_server w = (Ok true, written proxy_server w).
Proof.
  unfold write_faulty. intros H.
  repeat (apply orb_false_elim in H as [H ?]).
  unfold set_proxy, written. run_step.
  destruct (truthy proxy_server); cbn.
  all: repeat match goal with
              | Hf : faulty _ _ = false |- _ => rewrite Hf; cbn
              end.
  all: unfold emit; cbn; by rewrite <- !(assoc_L (++)).
Qed.

Lemma set_proxy_frame (proxy_server : value) (w : world) :
  ∃ w', set_proxy proxy_server w = (Ok (negb (write_faulty w)), w')
        ∧ proxies w' = proxies w
        ∧ config_file w' = config_file w
        ∧ faulty w' = faulty w
        ∧ (write_faulty w = true → Print Error_setting_proxy ∈ trace w')
        ∧ (faulty w (OpenKey KEY_WRITE) = true →
           internet_settings w' = internet_settings w).
Proof.
  destruct (write_faulty w) eqn:Hw.
  - unfold write_faulty in Hw. unfold set_proxy. run_step.
    repeat match goal with
           | |- context [faulty ?w0 ?c] =>
             destruct (faulty w0 c) eqn:?; cbn in *;
             [by eexists; split_and!; try done; set_solver|]
           | |- context [truthy proxy_server] =>
             destruct (truthy proxy_server); cbn in *
           end.
    all: done.
  - rewrite set_proxy_run_ok by done. eexists; split_and!; try done.
    unfold write_faulty in Hw. repeat (apply orb_false_elim in Hw as [Hw ?]).
    congruence.
Qed.

Section running.
Context {J : Json}.

(** *** save_proxies *)

Lemma save_proxies_frame (obj : value) (w : world) :
  ∃ w', save_proxies obj w = (Ok (), w')
        ∧ proxies w' = proxies w
        ∧ internet_settings w' = internet_settings w
        ∧ faulty w' = faulty w
        ∧ ∃ e, trace w' = trace w ++ [e].
Proof.
  unfold save_proxies, json_dump_file. run_step.
  repeat match goal with
         | |- context [faulty ?w0 ?c] => destruct (faulty w0 c) eqn:?; cbn in *
         end.
  all: eexists; split_and!; try done; by eexists.
Qed.

Lemma save_proxies_run_ok (obj : value) (w : world) :
  save_faulty w = false →
  save_proxies obj w =
    (Ok (), emit (FileWrite (json_dump obj)) (set_config_file (Some (json_dump obj)) w)).
Proof.
  unfold save_faulty. intros [H1 H2]%orb_false_elim.
  unfold save_proxies, json_dump_file. run_step. rewrite H1. cbn. by rewrite H2.
Qed.

(** *** toggle_proxy *)

Lemma turn_off_others_lookup (index : nat) (ps : list proxy) :
  turn_off_others index ps !! index = ps !! index.
Proof.
  unfold turn_off_others. rewrite list_lookup_imap.
  destruct (ps !! index); [cbn|done]. by rewrite bool_decide_false by naive_solver.
Qed.

Lemma toggled_insert (index : nat) (ps : list proxy) (p : proxy) :
  ps !! index = Some p →
  <[index := with_enabled (negb (enabled p)) p]> (turn_off_others index ps)
  = toggled index ps.
Proof.
  intros Hp. apply list_eq. intros i.
  unfold toggled, turn_off_others.
  destruct (decide (i = index)) as [->|Hne].
  - rewrite list_lookup_insert_eq, list_lookup_imap, Hp.
    + cbn. by rewrite bool_decide_false by naive_solver.
    + rewrite length_imap. by eapply lookup_lt_Some.
  - rewrite list_lookup_insert_ne by congruence. rewrite !list_lookup_imap.
    by rewrite bool_decide_true.
Qed.

Lemma toggle_proxy_run (index : nat) (p : proxy) (w : world) :
  proxies w !! index = Some p →
  toggle_proxy index w =
    update_ui
      (exec (save_proxies (profiles_value (toggled index (proxies w))))
         (exec (set_proxy (write_argument p))
            (set_proxies (toggled index (proxies w)) w))).
Proof.
  intros Hp. unfold toggle_proxy.
  rewrite bind_run, modify_run, bind_run, get_world_run.
  cbn [proxies set_proxies]. rewrite turn_off_others_lookup, Hp.
  rewrite bind_run, modify_run. cbn [proxies set_proxies enabled with_enabled server].
  rewrite (toggled_insert _ _ _ Hp).
  change (set_proxies (toggled index (proxies w)) _)
    with (set_proxies (toggled index (proxies w)) w).
  set (w1 := set_proxies (toggled index (proxies w)) w).
  assert (proxies w1 = toggled index (proxies w)) as Hw1 by done.
  unfold write_argument, exec. rewrite bind_run.
  destruct (negb (enabled p)).
  - destruct (set_proxy_frame (VStr (server p)) w1) as (w2 & -> & Hps & _).
    rewrite bind_run, get_world_run, bind_run, Hps, Hw1. cbn [fst snd].
    by destruct (save_proxies_frame (profiles_value (toggled index (proxies w))) w2)
      as (w3 & -> & _).
  - destruct (set_proxy_frame VNone w1) as (w2 & -> & Hps & _).
    rewrite bind_run, get_world_run, bind_run, Hps, Hw1. cbn [fst snd].
    by destruct (save_proxies_frame (profiles_value (toggled index (proxies w))) w2)
      as (w3 & -> & _).
Qed.

(** The three stages of [toggle_proxy]: the system write in the world
    with the toggled flags, the save, the refresh. *)
Lemma toggle_proxy_stages (index : nat) (p : proxy) (w : world) :
  proxies w !! index = Some p →
  ∃ w2 w3,
    set_proxy (write_argument p) (set_proxies (toggled index (proxies w)) w)
      = (Ok (negb (write_faulty w)), w2)
    ∧ save_proxies (profiles_value (toggled index (proxies w))) w2 = (Ok (), w3)
    ∧ toggle_proxy index w = update_ui w3
    ∧ proxies w3 = toggled index (proxies w)
    ∧ faulty w3 = faulty w
    ∧ internet_settings w3 = internet_settings w2
    ∧ config_file w2 = config_file w
    ∧ faulty w2 = faulty w
    ∧ proxies w2 = toggled index (proxies w).
Proof.
  intros Hp. rewrite (toggle_proxy_run _ _ _ Hp). unfold exec.
  set (w1 := set_proxies (toggled index (proxies w)) w).
  destruct (set_proxy_frame (write_argument p) w1) as (w2 & Hset & Hps & Hcf & Hf & _).
  destruct (save_proxies_frame (profiles_value (toggled index (proxies w))) w2)
    as (w3 & Hsave & Hps3 & Hreg3 & Hf3 & _).
  exists w2, w3. rewrite Hset. cbn [fst snd]. rewrite Hsave. cbn [fst snd].
  split_and!; try done.
  - by rewrite Hps3, Hps.
  - by rewrite Hf3, Hf.
Qed.

Lemma toggle_proxy_out_of_range (index : nat) (w : world) :
  length (proxies w) ≤ index →
  toggle_proxy index w =
    (Raise IndexError, set_proxies (with_enabled false <$> proxies w) w).
Proof.
  intros Hi. unfold toggle_proxy.
  rewrite bind_run, modify_run, bind_run, get_world_run.
  cbn [proxies set_proxies]. rewrite turn_off_others_lookup.
  rewrite (lookup_ge_None_2 _ _ Hi). unfold raise. do 2 f_equal.
  unfold turn_off_others. apply list_eq. intros i.
  rewrite list_lookup_imap, list_lookup_fmap.
  destruct (proxies w !! i) eqn:Hl; [cbn|done].
  apply lookup_lt_Some in Hl. rewrite bool_decide_true by lia. done.
Qed.

End running.

(** * Flags *)

Lemma set_flags_set_flags (c c' : value) (ps : list proxy) :
  set_flags c (set_flags c' ps) = set_flags c ps.
Proof. unfold set_flags. rewrite <- list_fmap_compose. by apply list_fmap_ext. Qed.

Lemma set_flags_off (c : value) (ps : list proxy) :
  set_flags c (with_enabled false <$> ps) = set_flags c ps.
Proof. unfold set_flags. rewrite <- list_fmap_compose. by apply list_fmap_ext. Qed.

Lemma set_flags_toggled (c : value) (index : nat) (ps : list proxy) :
  set_flags c (toggled index ps) = set_flags c ps.
Proof.
  unfold set_flags, toggled. apply list_eq. intros i.
  rewrite !list_lookup_fmap, list_lookup_imap.
  destruct (ps !! i); [cbn|done]. by case_bool_decide.
Qed.

Lemma set_flags_falsy (c : value) (ps : list proxy) :
  truthy c = false → set_flags c ps = with_enabled false <$> ps.
Proof.
  intros Hc. unfold set_flags. apply list_fmap_ext. intros _ p _.
  unfold is_active. by rewrite Hc.
Qed.

Lemma server_set_flags (c : value) (ps : list proxy) :
  server <$> set_flags c ps = server <$> ps.
Proof. unfold set_flags. rewrite <- list_fmap_compose. by apply list_fmap_ext. Qed.

Lemma server_toggled (index : nat) (ps : list proxy) :
  server <$> toggled index ps = server <$> ps.
Proof.
  unfold toggled. apply list_eq. intros i.
  rewrite !list_lookup_fmap, list_lookup_imap.
  destruct (ps !! i); [cbn|done]. by case_bool_decide.
Qed.

Lemma server_off (ps : list proxy) :
  server <$> (with_enabled false <$> ps) = server <$> ps.
Proof. rewrite <- list_fmap_compose. by apply list_fmap_ext. Qed.

Lemma is_active_server (c : value) (p : proxy) :
  is_active c p = true → c = VStr (server p) ∧ server p ≠ "".
Proof.
  unfold is_active. destruct c; cbn; try done.
  - by destruct b.
  - by destruct (negb _).
  - destruct (String.eqb s "") eqn:He; cbn; [done|].
    intros Hs. apply String.eqb_eq in Hs. subst s.
    by apply String.eqb_neq in He.
  - by destruct (negb _).
  - by destruct (negb _).
Qed.

Lemma is_active_str (s : string) (p : proxy) :
  is_active (VStr s) p = bool_decide (s ≠ "" ∧ s = server p).
Proof.
  unfold is_active; cbn. destruct (String.eqb s "") eqn:He; cbn.
  - apply String.eqb_eq in He. by rewrite bool_decide_false by (intros [? ?]; done).
  - apply String.eqb_neq in He. destruct (String.eqb s (server p)) eqn:Hs.
    + apply String.eqb_eq in Hs. by rewrite bool_decide_true.
    + apply String.eqb_neq in Hs. by rewrite bool_decide_false by (intros [? ?]; done).
Qed.

(** With distinct servers at most one profile has the current server. *)
Lemma count_enabled_set_flags (c : value) (ps : list proxy) :
  distinct_servers ps → count_enabled (set_flags c ps) ≤ 1.
Proof.
  unfold distinct_servers, count_enabled, set_flags.
  induction ps as [|p ps IH]; [cbn; lia|].
  rewrite !fmap_cons. destruct (is_active c p) eqn:Hp.
  - apply is_active_server in Hp as [-> Hne].
    rewrite filter_cons_True by done. rewrite filter_cons_True by done.
    intros [Hnotin _]%NoDup_cons.
    assert (filter (λ q, enabled q = true)
              ((λ q, with_enabled (is_active (VStr (server p)) q) q) <$> ps) = [])
      as ->; [|cbn; lia].
    apply elem_of_nil_inv. intros q' [Hen [q [-> Hq]]%list_elem_of_fmap]%list_elem_of_filter.
    cbn in Hen. apply is_active_server in Hen as [Hs _]. apply Hnotin.
    apply list_elem_of_filter. split; [done|].
    apply list_elem_of_fmap. exists q. split; [by injection Hs|done].
  - intros Hnd. rewrite filter_cons_False by (by cbn). apply IH.
    destruct (decide (server p = "")) as [He|He].
    + by rewrite filter_cons_False in Hnd by (intros ?; done).
    + rewrite filter_cons_True in Hnd by done. by apply NoDup_cons in Hnd as [_ ?].
Qed.

(** * The refresh: update_ui *)

(** C7. Refreshing twice in a row, the system being what it was, gives the
    same list of profiles as refreshing once. *)
Theorem update_ui_idempotent (w : world) :
  proxies (exec update_ui (exec update_ui w)) = proxies (exec update_ui w).
Proof.
  unfold exec. rewrite (update_ui_run w). cbn [snd].
  rewrite update_ui_run. cbn [snd proxies set_proxies].
  rewrite set_flags_set_flags. f_equal.
  apply current_proxy_ext; by destruct (read_registry w).
Qed.

(** C8. A refresh returns normally, leaves the registry and the
    configuration file as they are, performs no write (it prints at most),
    changes no name and no server; and when the read of the registry
    fails, it prints the failure and marks every profile off, as for a
    system without proxy. *)
Theorem update_ui_read_only (w : world) :
  outcome update_ui w = Ok ()
  ∧ internet_settings (exec update_ui w) = internet_settings w
  ∧ config_file (exec update_ui w) = config_file w
  ∧ name <$> proxies (exec update_ui w) = name <$> proxies w
  ∧ server <$> proxies (exec update_ui w) = server <$> proxies w
  ∧ (∃ printed, trace (exec update_ui w) = trace w ++ printed
                ∧ Forall (λ e, is_write e = false) printed)
  ∧ (read_registry w = None →
     proxies (exec update_ui w) = with_enabled false <$> proxies w
     ∧ trace (exec update_ui w) = trace w ++ [Print Error_reading_proxy]).
Proof.
  unfold outcome, exec. rewrite update_ui_run. cbn [fst snd].
  split_and!; try done.
  - by destruct (read_registry w).
  - by destruct (read_registry w).
  - cbn. unfold set_flags. rewrite <- list_fmap_compose. by apply list_fmap_ext.
  - cbn. apply server_set_flags.
  - destruct (read_registry w).
    + exists []. by rewrite app_nil_r.
    + exists [Print Error_reading_proxy]. split; [done|]. by repeat constructor.
  - intros Hr. unfold current_proxy. rewrite Hr. cbn. split; [|done].
    by apply set_flags_falsy.
Qed.

Lemma update_ui_read_only_witness :
  proxies (exec update_ui world_unreadable)
    = with_enabled false <$> proxies world_unreadable
  ∧ trace (exec update_ui world_unreadable)
    = trace world_unreadable ++ [Print Error_reading_proxy].
Proof.
  apply (update_ui_read_only world_unreadable). reflexivity.
Defined.

(** C10. When the system reports proxying enabled with an empty server
    string, a refresh marks every profile off, a profile whose server is
    the empty string included. *)
Theorem update_ui_empty_server (w : world) (proxy_enable : value) :
  read_faulty w = false →
  internet_settings w !! "ProxyEnable" = Some proxy_enable →
  truthy proxy_enable = true →
  internet_settings w !! "ProxyServer" = Some (VStr "") →
  proxies (exec update_ui w) = with_enabled false <$> proxies w.
Proof.
  intros Hr He Ht Hs. unfold exec. rewrite update_ui_run. cbn [snd proxies set_proxies].
  unfold current_proxy. rewrite (read_registry_ok _ _ _ Hr He Hs), Ht. cbn.
  by apply set_flags_falsy.
Qed.

Lemma update_ui_empty_server_witness :
  proxies (exec update_ui world_blank)
    = [ Proxy "Blank" "" false; Proxy "Office" "http://proxy.corp.com:912" false ].
Proof.
  apply (update_ui_empty_server world_blank (VInt 1)); reflexivity.
Defined.

(** C4, as worded, fails on a profile without server when the system's
    server string is empty too: the wording marks it enabled, the program
    marks it off. *)
Lemma refresh_follows_system_counterexample :
  ¬ refresh_follows_system world_blank.
Proof.
  intros H. specialize (H 1%Z "" eq_refl eq_refl eq_refl).
  vm_compute in H. discriminate H.
Qed.

(** C4, amended. When the registry is read without failure, a refresh
    marks a profile enabled exactly when proxying is enabled, the system's
    server string is not empty and it equals the profile's server; so when
    that string is the server of no profile, every profile ends off. *)
Theorem update_ui_follows_system (w : world) (proxy_enable : Z) (proxy_server : string) :
  read_faulty w = false →
  internet_settings w !! "ProxyEnable" = Some (VInt proxy_enable) →
  internet_settings w !! "ProxyServer" = Some (VStr proxy_server) →
  proxies (exec update_ui w) =
    ((λ p, with_enabled
             (bool_decide (proxy_enable ≠ 0%Z ∧ proxy_server ≠ ""
                           ∧ proxy_server = server p)) p)
       <$> proxies w)
  ∧ ((∀ p, p ∈ proxies w → server p ≠ proxy_server) →
     proxies (exec update_ui w) = with_enabled false <$> proxies w).
Proof.
  intros Hr He Hs.
  assert (proxies (exec update_ui w) =
    ((λ p, with_enabled
             (bool_decide (proxy_enable ≠ 0%Z ∧ proxy_server ≠ ""
                           ∧ proxy_server = server p)) p)
       <$> proxies w)) as Heq.
  { unfold exec. rewrite update_ui_run. cbn [snd proxies set_proxies].
    unfold current_proxy. rewrite (read_registry_ok _ _ _ Hr He Hs). cbn.
    unfold set_flags. apply list_fmap_ext. intros _ p _. f_equal.
    destruct (Z.eqb_spec proxy_enable 0) as [->|Hz]; cbn.
    - by rewrite bool_decide_false by (intros [? ?]; done).
    - rewrite is_active_str. apply bool_decide_ext. intuition. }
  split; [done|].
  intros Hnone. rewrite Heq. apply list_fmap_ext. intros i p Hp. f_equal.
  apply bool_decide_false. intros (_ & _ & Hsp).
  eapply Hnone; [|done]. by eapply list_elem_of_lookup_2.
Qed.

Lemma update_ui_follows_system_witness :
  proxies (exec update_ui world_twins) =
    [ Proxy "Office" "http://proxy.corp.com:912" true;
      Proxy "Office (copy)" "http://proxy.corp.com:912" true ].
Proof.
  apply (update_ui_follows_system world_twins 1 "http://proxy.corp.com:912");
    reflexivity.
Defined.

(** * The activation: toggle_proxy *)

Section activation.
Context {J : Json}.

(** What every call of [toggle_proxy] within bounds does. *)
Lemma toggle_proxy_spec (index : nat) (p : proxy) (w : world) :
  proxies w !! index = Some p →
  ∃ w2 w3,
    set_proxy (write_argument p) (set_proxies (toggled index (proxies w)) w)
      = (Ok (negb (write_faulty w)), w2)
    ∧ save_proxies (profiles_value (toggled index (proxies w))) w2 = (Ok (), w3)
    ∧ toggle_proxy index w = update_ui w3
    ∧ outcome (toggle_proxy index) w = Ok ()
    ∧ proxies (exec (toggle_proxy index) w)
      = set_flags (current_proxy (exec (toggle_proxy index) w)) (proxies w)
    ∧ current_proxy (exec (toggle_proxy index) w) = current_proxy w2
    ∧ (save_faulty w = false →
       config_file (exec (toggle_proxy index) w)
       = Some (json_dump (profiles_value (toggled index (proxies w))))).
Proof.
  intros Hp.
  destruct (toggle_proxy_stages index p w Hp)
    as (w2 & w3 & Hset & Hsave & Hrun & Hps3 & Hf3 & Hreg3 & Hcf2 & Hf2 & Hps2).
  exists w2, w3. split_and!; try done.
  - unfold outcome. by rewrite Hrun, update_ui_run.
  - unfold exec. rewrite Hrun, update_ui_run. cbn [snd proxies set_proxies].
    rewrite Hps3, set_flags_toggled. f_equal. symmetry.
    apply current_proxy_ext; by destruct (read_registry w3).
  - unfold exec. rewrite Hrun, update_ui_run. cbn [snd].
    transitivity (current_proxy w3).
    + apply current_proxy_ext; by destruct (read_registry w3).
    + apply current_proxy_ext; [done|]. by rewrite Hf3, Hf2.
  - intros Hsf. unfold exec. rewrite Hrun, update_ui_run. cbn [snd].
    rewrite save_proxies_run_ok in Hsave.
    + injection Hsave as <-. by destruct (read_registry _).
    + unfold save_faulty in *. by rewrite Hf2.
Qed.


(** C1, amended. When the system write of [toggle_proxy] fails, the call
    still returns normally, the failure being printed only; the list is
    saved all the same, with the toggled flags; and the final flags are
    those the closing refresh computes from the system.  They are the
    flags from before the call when the registry key could not even be
    opened for writing and those flags already mirrored the system. *)
Theorem toggle_proxy_failed_write (index : nat) (p : proxy) (w : world) :
  proxies w !! index = Some p →
  write_faulty w = true →
  outcome (toggle_proxy index) w = Ok ()
  ∧ Print Error_setting_proxy ∈ trace (exec (toggle_proxy index) w)
  ∧ proxies (exec (toggle_proxy index) w)
    = set_flags (current_proxy (exec (toggle_proxy index) w)) (proxies w)
  ∧ (save_faulty w = false →
     config_file (exec (toggle_proxy index) w)
     = Some (json_dump (profiles_value (toggled index (proxies w)))))
  ∧ (faulty w (OpenKey KEY_WRITE) = true →
     proxies w = set_flags (current_proxy w) (proxies w) →
     proxies (exec (toggle_proxy index) w) = proxies w).
Proof.
  intros Hp Hw.
  destruct (toggle_proxy_spec index p w Hp)
    as (w2 & w3 & Hset & Hsave & Hrun & Hout & Hps & Hcur & Hcf).
  set (w1 := set_proxies (toggled index (proxies w)) w) in *.
  destruct (set_proxy_frame (write_argument p) w1)
    as (w2' & Hset' & _ & _ & Hf2 & Hprint & Hreg).
  rewrite Hset in Hset'. injection Hset' as <-.
  split_and!; try done.
  - destruct (save_proxies_frame (profiles_value (toggled index (proxies w))) w2)
      as (w3' & Hsave' & _ & _ & _ & e & He).
    rewrite Hsave in Hsave'. injection Hsave' as <-.
    unfold exec. rewrite Hrun, update_ui_run. cbn [snd].
    assert (Print Error_setting_proxy ∈ trace w3) as Hin.
    { rewrite He. apply elem_of_app. left. by apply Hprint. }
    destruct (read_registry w3); cbn; [done|].
    apply elem_of_app. by left.
  - intros Hopen Hmirror. rewrite Hps, Hcur.
    rewrite (current_proxy_ext w w2); [by rewrite <- Hmirror| |done].
    by apply Hreg.
Qed.

End activation.

Section toggling.
Context {J : Json}.

(** A call of [toggle_proxy] when neither the write nor the read fails. *)
Lemma toggle_proxy_write_ok (index : nat) (p : proxy) (w : world) :
  proxies w !! index = Some p →
  write_faulty w = false → read_faulty w = false →
  proxies (exec (toggle_proxy index) w)
    = set_flags (if truthy (write_argument p) then write_argument p else VNone)
        (proxies w)
  ∧ faulty (exec (toggle_proxy index) w) = faulty w
  ∧ ∃ e, trace (exec (toggle_proxy index) w)
         = trace w
           ++ [ RegSet "ProxyEnable"
                  (if truthy (write_argument p) then VInt 1 else VInt 0);
                RegSet "ProxyServer"
                  (if truthy (write_argument p) then write_argument p else VStr "");
                InternetSetOption INTERNET_OPTION_SETTINGS_CHANGED;
                InternetSetOption INTERNET_OPTION_REFRESH ]
           ++ [e].
Proof.
  intros Hp Hw Hr.
  destruct (toggle_proxy_stages index p w Hp)
    as (w2 & w3 & Hset & Hsave & Hrun & Hps3 & Hf3 & Hreg3 & Hcf2 & Hf2 & Hps2).
  rewrite (set_proxy_run_ok (write_argument p)
             (set_proxies (toggled index (proxies w)) w) Hw) in Hset.
  rewrite Hw in Hset. injection Hset as <-.
  destruct (save_proxies_frame (profiles_value (toggled index (proxies w)))
              (written (write_argument p) (set_proxies (toggled index (proxies w)) w)))
    as (w3' & Hsave' & _ & _ & _ & e & He).
  rewrite Hsave in Hsave'. injection Hsave' as <-.
  assert (read_registry w3
          = Some (if truthy (write_argument p) then write_argument p else VNone))
    as Hread.
  { erewrite read_registry_ok.
    - instantiate (1 := if truthy (write_argument p) then write_argument p else VStr "").
      instantiate (1 := if truthy (write_argument p) then VInt 1 else VInt 0).
      by destruct (truthy (write_argument p)).
    - unfold read_faulty in *. by rewrite Hf3.
    - rewrite Hreg3. cbn. by rewrite lookup_insert_ne, lookup_insert_eq.
    - rewrite Hreg3. cbn. by rewrite lookup_insert_eq. }
  unfold exec. rewrite Hrun, update_ui_run. unfold current_proxy. rewrite Hread.
  cbn [snd proxies set_proxies faulty trace default].
  split_and!.
  - by rewrite Hps3, set_flags_toggled.
  - done.
  - exists e. rewrite He. cbn. by rewrite <- (assoc_L (++)).
Qed.

(** C3, as worded, fails when the profile is active to begin with: the
    first call switches it off, the second one on again. *)
Lemma toggle_twice_is_off_counterexample :
  ¬ @toggle_twice_is_off codec 0 world_active.
Proof.
  intros H. destruct H as [Hoff _]; [cbn; lia|reflexivity|].
  assert (Proxy "Office" "http://proxy.corp.com:912" true
          ∈ proxies (exec (@toggle_proxy codec 0)
                       (exec (@toggle_proxy codec 0) world_active))) as Hin.
  { vm_compute. left. }
  specialize (Hoff _ Hin). discriminate Hoff.
Qed.

(** C3, amended. Starting from a profile that is not marked enabled, with
    the writes and the reads of the system succeeding and nobody else
    touching the system in between, two calls of [toggle_proxy] on that
    profile leave every profile off, and the second call performs the
    write that disables the proxy. *)
Theorem toggle_proxy_twice (index : nat) (p : proxy) (w : world) :
  proxies w !! index = Some p → enabled p = false →
  write_faulty w = false → read_faulty w = false →
  proxies (exec (toggle_proxy index) (exec (toggle_proxy index) w))
    = with_enabled false <$> proxies w
  ∧ ∃ rest, trace (exec (toggle_proxy index) (exec (toggle_proxy index) w))
            = trace (exec (toggle_proxy index) w) ++ disabling_write ++ rest.
Proof.
  intros Hp Hen Hw Hr.
  destruct (toggle_proxy_write_ok index p w Hp Hw Hr) as (Hps1 & Hf1 & _).
  set (w1 := exec (toggle_proxy index) w) in *.
  set (cur := if truthy (write_argument p) then write_argument p else VNone) in *.
  assert (proxies w1 !! index = Some (with_enabled (is_active cur p) p)) as Hp1.
  { rewrite Hps1. unfold set_flags. by rewrite list_lookup_fmap, Hp. }
  assert (truthy (write_argument (with_enabled (is_active cur p) p)) = false) as Harg.
  { unfold cur, write_argument. rewrite Hen. cbn.
    destruct (String.eqb (server p) "") eqn:He; cbn.
    - by rewrite He.
    - rewrite is_active_str, bool_decide_true; [done|].
      split; [|done]. by apply String.eqb_neq. }
  assert (write_faulty w1 = false) as Hw1 by (unfold write_faulty; by rewrite Hf1).
  assert (read_faulty w1 = false) as Hr1 by (unfold read_faulty; by rewrite Hf1).
  destruct (toggle_proxy_write_ok index _ w1 Hp1 Hw1 Hr1) as (Hps2 & _ & e & Htr).
  rewrite Harg in Hps2, Htr. split.
  - rewrite Hps2, Hps1, set_flags_set_flags. by apply set_flags_falsy.
  - by exists [e].
Qed.

(** C1, as worded, fails on the default profiles when the registry key
    cannot be opened for writing: no error reaches the caller, and the
    list is saved with the first profile marked enabled. *)
Lemma failed_write_rolls_back_counterexample :
  ¬ @failed_write_rolls_back codec 0 world_read_only.
Proof.
  intros H. destruct H as [[e He] _]; [cbn; lia|reflexivity|].
  vm_compute in He. discriminate He.
Qed.

(** *** The single-active invariant *)

Lemma do_step_servers (s : step) (w : world) :
  server <$> proxies (do_step s w) = server <$> proxies w.
Proof.
  destruct s as [[index|]|]; cbn [do_step perform]; [| |done].
  - destruct (proxies w !! index) as [p|] eqn:Hp.
    + destruct (toggle_proxy_spec index p w Hp) as (_ & _ & _ & _ & _ & _ & -> & _ & _).
      apply server_set_flags.
    + apply lookup_ge_None in Hp. unfold exec.
      rewrite toggle_proxy_out_of_range by done. apply server_off.
  - unfold exec. rewrite update_ui_run. apply server_set_flags.
Qed.

Lemma history_servers (steps : list step) (w : world) :
  server <$> proxies (history steps w) = server <$> proxies w.
Proof.
  unfold history. revert w. induction steps as [|s steps IH]; intros w; [done|].
  cbn. by rewrite IH, do_step_servers.
Qed.

(** C2, as worded, fails on two profiles with the same server when the
    system's proxy is that server: a refresh marks both enabled. *)
Lemma single_active_after_calls_counterexample :
  ¬ @single_active_after_calls codec world_twins.
Proof.
  intros H. specialize (H [] refreshFromSystem).
  assert (2 ≤ 1) as Habs; [|lia].
  apply H; [|reflexivity]. by repeat constructor.
Qed.

(** C2, amended. When no server string other than the empty one occurs in
    two profiles, then after any history of calls and of changes made by
    others, every call of [toggle_proxy] or [update_ui] that returns leaves
    at most one profile enabled. *)
Theorem single_active_distinct_servers
    (w : world) (steps : list step) (o : operation) :
  distinct_servers (proxies w) →
  outcome (perform o) (history steps w) = Ok () →
  count_enabled (proxies (exec (perform o) (history steps w))) ≤ 1.
Proof.
  intros Hd Hout.
  assert (distinct_servers (proxies (history steps w))) as Hd'.
  { unfold distinct_servers. by rewrite history_servers. }
  set (w1 := history steps w) in *. clearbody w1.
  destruct o as [index|]; cbn [perform] in *.
  - destruct (proxies w1 !! index) as [p|] eqn:Hp.
    + destruct (toggle_proxy_spec index p w1 Hp) as (_ & _ & _ & _ & _ & _ & -> & _ & _).
      by apply count_enabled_set_flags.
    + apply lookup_ge_None in Hp. unfold outcome in Hout.
      by rewrite toggle_proxy_out_of_range in Hout.
  - unfold exec. rewrite update_ui_run. by apply count_enabled_set_flags.
Qed.

End toggling.

(** * Witnesses on concrete worlds *)


Lemma toggle_proxy_failed_write_witness :
  outcome (@toggle_proxy codec 0) world_read_only = Ok ()
  ∧ Print Error_setting_proxy ∈ trace (exec (@toggle_proxy codec 0) world_read_only)
  ∧ proxies (exec (@toggle_proxy codec 0) world_read_only) = proxies world_read_only.
Proof.
  pose proof (@toggle_proxy_failed_write codec 0 _ world_read_only eq_refl eq_refl)
    as (Hout & Hprint & _ & _ & Hback).
  split; [exact Hout|]. split; [exact Hprint|].
  apply Hback; reflexivity.
Defined.

Lemma toggle_proxy_twice_witness :
  proxies (exec (@toggle_proxy codec 0) (exec (@toggle_proxy codec 0) world_fresh))
    = default_profiles.
Proof.
  apply (@toggle_proxy_twice codec 0 _ world_fresh eq_refl eq_refl eq_refl eq_refl).
Defined.

Lemma single_active_distinct_servers_witness :
  count_enabled
    (proxies
       (exec (@perform codec (activate 1))
          (@history codec
             [ Call (activate 0);
               Outside (registry_on "http://elsewhere:3128") None no_faults;
               Call refreshFromSystem ]
             world_fresh))) ≤ 1.
Proof.
  apply (@single_active_distinct_servers codec world_fresh).
  - apply (bool_decide_unpack _). vm_compute. exact I.
  - reflexivity.
Defined.

(** * Runs on concrete worlds *)

(** The registry key cannot be opened for writing: the first default
    profile is toggled, nothing is raised, the list is saved with the flag
    on, and the refresh puts the flag off again. *)
Example run_world_read_only :
  @toggle_proxy codec 0 world_read_only
  = (Ok (),
     {| proxies := default_profiles;
        internet_settings := registry_off;
        config_file := Some (dumps 0 (profiles_value (toggled 0 default_profiles)));
        faulty := faulty world_read_only;
        trace := [ Print Error_setting_proxy;
                   FileWrite (dumps 0 (profiles_value (toggled 0 default_profiles))) ] |}).
Proof. reflexivity. Qed.

(** Two profiles with the server the system uses: both are enabled. *)
Example run_world_twins :
  enabled <$> proxies (exec update_ui world_twins) = [true; true].
Proof. reflexivity. Qed.

(** An active profile toggled twice is active again, and the last write
    enables the proxy. *)
Example run_world_active :
  proxies (exec (@toggle_proxy codec 0) (exec (@toggle_proxy codec 0) world_active))
  = proxies world_active
  ∧ internet_settings (exec (@toggle_proxy codec 0) (exec (@toggle_proxy codec 0) world_active))
      !! "ProxyEnable" = Some (VInt 1).
Proof. split; reflexivity. Qed.

(** When the registry cannot be read, an inactive profile toggled twice
    has its proxy written to the system twice, the refresh seeing no proxy
    each time. *)
Example run_world_unreadable :
  let w := set_proxies [Proxy "Office" "http://proxy.corp.com:912" false] world_unreadable in
  filter (λ e, is_write e = true)
    (trace (exec (@toggle_proxy codec 0) (exec (@toggle_proxy codec 0) w)))
  = [ RegSet "ProxyEnable" (VInt 1); RegSet "ProxyServer" (VStr "http://proxy.corp.com:912");
      InternetSetOption 39; InternetSetOption 37;
      FileWrite (dumps 0 (profiles_value [Proxy "Office" "http://proxy.corp.com:912" true]));
      RegSet "ProxyEnable" (VInt 1); RegSet "ProxyServer" (VStr "http://proxy.corp.com:912");
      InternetSetOption 39; InternetSetOption 37;
      FileWrite (dumps 0 (profiles_value [Proxy "Office" "http://proxy.corp.com:912" true])) ].
Proof. reflexivity. Qed.

(** The exclusivity example of the specification: from two profiles off,
    activating the first and then the second leaves only the second on,
    and the system's server is the second profile's. *)
Example run_world_fresh :
  let w1 := exec (@toggle_proxy codec 0) world_fresh in
  let w2 := exec (@toggle_proxy codec 1) w1 in
  enabled <$> proxies w1 = [true; false]
  ∧ internet_settings w1 !! "ProxyServer" = Some (VStr "http://proxy-example.corp.com:912")
  ∧ enabled <$> proxies w2 = [false; true]
  ∧ internet_settings w2 !! "ProxyServer" = Some (VStr "http://vpn-proxy.example.com:8080").
Proof. repeat split; reflexivity. Qed.

(** A list of numbers is JSON: [load_proxies] returns it as it is. *)
Example run_other_shape :
  outcome (@load_proxies codec) (set_config_file (Some "[1, 2]") world_fresh)
  = Ok (VList [VInt 1; VInt 2]).
Proof. reflexivity. Qed.

(** * The codec reads back what it writes *)

Lemma append_cons (c : ascii) (s t : string) : String c s +:+ t = String c (s +:+ t).
Proof. reflexivity. Qed.

Lemma append_nil (t : string) : "" +:+ t = t.
Proof. reflexivity. Qed.

Lemma append_assoc (s t u : string) : (s +:+ t) +:+ u = s +:+ (t +:+ u).
Proof.
  induction s as [|c s IH]; [done|]. rewrite !append_cons. by f_equal.
Qed.

Lemma length_append (s t : string) :
  String.length (s +:+ t) = String.length s + String.length t.
Proof.
  induction s as [|c s IH]; [done|]. rewrite append_cons. cbn. by f_equal.
Qed.

(** Brings a text to the form [String c1 (String c2 (... +:+ rest))]. *)
Ltac text :=
  repeat first [rewrite append_assoc | rewrite append_cons | rewrite append_nil].

Lemma scanstring_escape_char (c : ascii) (t : string) :
  scanstring (escape_char c +:+ t) = push c (scanstring t).
Proof. destruct c as [[] [] [] [] [] [] [] []]; reflexivity. Qed.

Lemma scanstring_escape (s rest : string) :
  scanstring (escape s +:+ String dquote rest) = Some (s, rest).
Proof.
  induction s as [|c s IH]; [done|].
  change (escape (String c s)) with (escape_char c +:+ escape s).
  rewrite append_assoc, scanstring_escape_char, IH. done.
Qed.

Lemma skip_whitespace_spaces (n : nat) (s : string) :
  skip_whitespace (spaces n +:+ s) = skip_whitespace s.
Proof. induction n as [|n IH]; [done|]. cbn [spaces]. text. cbn. by rewrite IH. Qed.

Lemma skip_whitespace_newline_indent (level : nat) (s : string) :
  skip_whitespace (newline_indent level +:+ s) = skip_whitespace s.
Proof. unfold newline_indent. text. cbn. apply skip_whitespace_spaces. Qed.

Lemma parse_value_whitespace (fuel : nat) (s s' : string) :
  skip_whitespace s = skip_whitespace s' →
  parse_value fuel s = parse_value fuel s'.
Proof. intros H. destruct fuel; [done|]. cbn. by rewrite H. Qed.

Lemma parse_object_whitespace (fuel : nat) (s s' : string) :
  skip_whitespace s = skip_whitespace s' →
  parse_object fuel s = parse_object fuel s'.
Proof. intros H. destruct fuel; [done|]. cbn. by rewrite H. Qed.

Lemma parse_array_whitespace (fuel : nat) (s s' : string) :
  skip_whitespace s = skip_whitespace s' →
  parse_array fuel s = parse_array fuel s'.
Proof.
  intros H. destruct fuel; [done|]. cbn.
  by rewrite (parse_value_whitespace fuel s s').
Qed.

Lemma parse_value_string (fuel : nat) (s rest : string) :
  parse_value (S fuel) (encode_basestring_ascii s +:+ rest) = Some (VStr s, rest).
Proof.
  pose proof (scanstring_escape s rest) as Hscan.
  unfold encode_basestring_ascii, dquote in *. text. cbn. by rewrite Hscan.
Qed.

Lemma parse_value_bool (fuel : nat) (b : bool) (rest : string) :
  parse_value (S fuel) (dumps 0 (VBool b) +:+ rest) = Some (VBool b, rest).
Proof. by destruct b. Qed.

Lemma skip_whitespace_space (s : string) :
  skip_whitespace (String " " s) = skip_whitespace s.
Proof. reflexivity. Qed.

(** The last member of an object, and a member followed by others. *)
Lemma parse_object_last
    (fuel level level' : nat) (key vt rest : string) (v : value) :
  (∀ r, parse_value fuel (vt +:+ r) = Some (v, r)) →
  parse_object (S fuel)
    (newline_indent level +:+ encode_basestring_ascii key +:+ ": " +:+ vt
     +:+ newline_indent level' +:+ "}" +:+ rest)
  = Some ([(key, v)], rest).
Proof.
  intros Hv. cbn [parse_object]. rewrite skip_whitespace_newline_indent.
  pose proof (scanstring_escape key) as Hscan.
  unfold encode_basestring_ascii, dquote in *. text. cbn.
  rewrite Hscan. cbn.
  rewrite (parse_value_whitespace _ _ _ (skip_whitespace_space _)), Hv. cbn.
  rewrite skip_whitespace_newline_indent. by text.
Qed.

Lemma parse_object_more
    (fuel level : nat) (key vt more rest : string) (v : value)
    (d : list (string * value)) :
  (∀ r, parse_value fuel (vt +:+ r) = Some (v, r)) →
  parse_object fuel more = Some (d, rest) →
  parse_object (S fuel)
    (newline_indent level +:+ encode_basestring_ascii key +:+ ": " +:+ vt
     +:+ "," +:+ more)
  = Some ((key, v) :: d, rest).
Proof.
  intros Hv Hmore. cbn [parse_object]. rewrite skip_whitespace_newline_indent.
  pose proof (scanstring_escape key) as Hscan.
  unfold encode_basestring_ascii, dquote in *. text. cbn.
  rewrite Hscan. cbn.
  rewrite (parse_value_whitespace _ _ _ (skip_whitespace_space _)), Hv. cbn.
  by rewrite Hmore.
Qed.

(** The text written for a profile. *)
Lemma dumps_proxy_value (level : nat) (p : proxy) (rest : string) :
  dumps level (proxy_value p) +:+ rest =
    "{" +:+ newline_indent (S level) +:+ encode_basestring_ascii "name" +:+ ": "
    +:+ encode_basestring_ascii (name p) +:+ ","
    +:+ newline_indent (S level) +:+ encode_basestring_ascii "server" +:+ ": "
    +:+ encode_basestring_ascii (server p) +:+ ","
    +:+ newline_indent (S level) +:+ encode_basestring_ascii "enabled" +:+ ": "
    +:+ dumps 0 (VBool (enabled p))
    +:+ newline_indent level +:+ "}" +:+ rest.
Proof.
  unfold proxy_value. cbn [dumps List.map String.concat fst snd].
  by rewrite !append_assoc.
Qed.

Lemma parse_value_profile (fuel level : nat) (p : proxy) (rest : string) :
  parse_value (5 + fuel) (dumps level (proxy_value p) +:+ rest)
  = Some (proxy_value p, rest).
Proof.
  rewrite dumps_proxy_value. rewrite (append_cons "{" ""), append_nil.
  cbn [Nat.add parse_value].
  change (skip_whitespace (String "{" ?s)) with (String "{" s).
  cbn match.
  erewrite parse_object_more; [| |eapply parse_object_more; [|eapply parse_object_last]].
  - rewrite skip_whitespace_newline_indent. unfold encode_basestring_ascii. text. cbn.
    reflexivity.
  - intros r. apply parse_value_string.
  - intros r. apply parse_value_string.
  - intros r. apply parse_value_bool.
Qed.

Lemma concat_cons_cons (sep x y : string) (l : list string) :
  String.concat sep (x :: y :: l) = x +:+ sep +:+ String.concat sep (y :: l).
Proof. reflexivity. Qed.

Lemma append_nil_r (s : string) : s +:+ "" = s.
Proof. induction s as [|c s IH]; [done|]. rewrite append_cons. by f_equal. Qed.

Lemma concat_head (sep x : string) (l : list string) :
  ∃ tail, String.concat sep (x :: l) = x +:+ tail.
Proof.
  destruct l as [|y l].
  - exists "". by rewrite append_nil_r.
  - eexists. apply concat_cons_cons.
Qed.

Lemma length_concat (sep x : string) (l : list string) :
  1 ≤ String.length sep → length l ≤ String.length (String.concat sep (x :: l)).
Proof.
  intros Hsep. revert x. induction l as [|y l IH]; intros x; [cbn; lia|].
  rewrite concat_cons_cons, !length_append. specialize (IH y). cbn [length]. lia.
Qed.

(** The elements of an array of profiles, up to the closing bracket. *)
Lemma parse_array_profiles (ps : list proxy) (p : proxy) (fuel : nat) (rest : string) :
  length ps + 6 ≤ fuel →
  parse_array fuel
    (newline_indent 1
     +:+ String.concat ("," +:+ newline_indent 1)
           (List.map (dumps 1) (proxy_value <$> (p :: ps)))
     +:+ newline_indent 0 +:+ "]" +:+ rest)
  = Some (proxy_value <$> (p :: ps), rest).
Proof.
  revert p fuel. induction ps as [|q ps IH]; intros p fuel Hfuel.
  - destruct fuel as [|fuel]; [cbn in Hfuel; lia|].
    cbn [parse_array].
    rewrite (parse_value_whitespace _ _ _ (skip_whitespace_newline_indent _ _)).
    cbn [fmap list_fmap List.map String.concat].
    replace fuel with (5 + (fuel - 5)) by (cbn in Hfuel; lia).
    rewrite parse_value_profile. cbn [mbind option_bind].
    rewrite skip_whitespace_newline_indent. by text.
  - destruct fuel as [|fuel]; [cbn in Hfuel; lia|].
    cbn [parse_array].
    rewrite (parse_value_whitespace _ _ _ (skip_whitespace_newline_indent _ _)).
    rewrite !fmap_cons. cbn [List.map]. rewrite concat_cons_cons, !append_assoc.
    replace fuel with (5 + (fuel - 5)) at 1 by (cbn in Hfuel; lia).
    rewrite parse_value_profile. cbn [mbind option_bind].
    rewrite append_cons, append_nil.
    change (skip_whitespace (String "," ?s)) with (String "," s). cbn match.
    specialize (IH q fuel). rewrite !fmap_cons in IH. cbn [List.map] in IH.
    rewrite IH by (cbn in Hfuel; lia). done.
Qed.

Lemma loads_dumps_profiles (ps : list proxy) :
  loads (dumps 0 (profiles_value ps)) = Some (profiles_value ps).
Proof.
  destruct ps as [|p ps]; [done|].
  unfold loads, profiles_value.
  set (body := String.concat ("," +:+ newline_indent 1)
                 (List.map (dumps 1) (proxy_value <$> (p :: ps)))).
  assert (dumps 0 (VList (proxy_value <$> (p :: ps)))
          = String "[" (newline_indent 1 +:+ body +:+ newline_indent 0 +:+ "]" +:+ ""))
    as -> by done.
  assert (∃ tail, skip_whitespace (newline_indent 1 +:+ body +:+ newline_indent 0
                                   +:+ "]" +:+ "") = String "{" tail) as [tail Htail].
  { rewrite skip_whitespace_newline_indent. unfold body. rewrite fmap_cons.
    cbn [List.map].
    destruct (concat_head ("," +:+ newline_indent 1) (dumps 1 (proxy_value p))
                (List.map (dumps 1) (proxy_value <$> ps))) as [t ->].
    rewrite append_assoc, dumps_proxy_value, (append_cons "{").
    change (skip_whitespace (String "{" ?s)) with (String "{" s). by eexists. }
  cbn [parse_value].
  change (skip_whitespace (String "[" ?s)) with (String "[" s). cbn match.
  rewrite Htail. unfold body. rewrite parse_array_profiles; [done|].
  fold body.
  assert (length ps ≤ String.length body) as Hlen.
  { pose proof (length_concat ("," +:+ newline_indent 1)
                  (dumps 1 (proxy_value p))
                  (List.map (dumps 1) (proxy_value <$> ps))) as Hlen.
    rewrite length_map, length_fmap in Hlen. apply Hlen.
    rewrite length_append. cbn. lia. }
  clearbody body.
  change (String.length (String "[" ?s)) with (S (String.length s)).
  rewrite !length_append.
  change (String.length (newline_indent 1)) with 3.
  change (String.length (newline_indent 0)) with 1.
  change (String.length "]") with 1. change (String.length "") with 0. lia.
Qed.

Lemma codec_round_trip : JsonRoundTrip codec.
Proof. intros ps. apply loads_dumps_profiles. Qed.

(** * The configuration file: load_proxies and save_proxies *)

Lemma profiles_value_inj (ps qs : list proxy) :
  profiles_value ps = profiles_value qs → ps = qs.
Proof.
  unfold profiles_value. intros H. injection H as H. revert qs H.
  induction ps as [|p ps IH]; intros [|q qs] H; try done.
  rewrite !fmap_cons in H. injection H as Hn Hs He Hrest.
  destruct p, q; cbn in *. subst. f_equal. by apply IH.
Qed.

Lemma DEFAULT_PROXIES_profiles : DEFAULT_PROXIES = profiles_value default_profiles.
Proof. reflexivity. Qed.

Section storage.
Context {J : Json}.

(** C5. With a json module that reads back the lists of profiles it
    writes, and no failing file operation, loading after saving a list of
    profiles returns that list. *)
Theorem save_then_load {R : JsonRoundTrip J} (ps : list proxy) (w : world) :
  save_faulty w = false → load_faulty w = false →
  load_proxies (exec (save_proxies (profiles_value ps)) w)
  = (Ok (profiles_value ps), exec (save_proxies (profiles_value ps)) w).
Proof.
  intros Hs Hl. unfold exec. rewrite (save_proxies_run_ok _ _ Hs). cbn [snd].
  unfold load_faulty in Hl. apply orb_false_elim in Hl as [Ho Hr].
  unfold load_proxies, os_path_exists, json_load_file, read_config. run_step.
  rewrite Ho. cbn. rewrite Hr. cbn. by rewrite json_round_trip.
Qed.

(** C6, amended. When the configuration file exists, [load_proxies]
    raises nothing, whatever the file holds and whatever fails; and when
    the text of the file is not accepted by [json.load], it prints
    "Error loading config" and returns the default profiles. *)
Theorem load_proxies_malformed (text : string) (w : world) :
  config_file w = Some text →
  (∃ v, outcome load_proxies w = Ok v)
  ∧ (json_load text = None →
     load_proxies w = (Ok DEFAULT_PROXIES, emit (Print Error_loading_config) w)).
Proof.
  intros Hfile. unfold outcome.
  unfold load_proxies, os_path_exists, json_load_file, read_config. run_step.
  rewrite Hfile. cbn.
  destruct (faulty w (open_file mode_r)); cbn; [by eauto|]. rewrite Hfile. cbn.
  destruct (faulty w read_file); cbn; [by eauto|].
  destruct (json_load text) as [v|]; cbn; split; eauto; done.
Qed.

End storage.

Lemma save_then_load_witness :
  outcome (@load_proxies codec)
    (exec (@save_proxies codec (profiles_value default_profiles)) world_fresh)
  = Ok DEFAULT_PROXIES.
Proof.
  unfold outcome.
  rewrite (@save_then_load codec codec_round_trip default_profiles world_fresh
             eq_refl eq_refl).
  reflexivity.
Defined.

Lemma load_proxies_malformed_witness :
  (∃ v, outcome (@load_proxies codec) world_garbled = Ok v)
  ∧ @load_proxies codec world_garbled
    = (Ok DEFAULT_PROXIES, emit (Print Error_loading_config) world_garbled).
Proof.
  destruct (@load_proxies_malformed codec "[ { 'name': Office " world_garbled eq_refl)
    as [Hok Hbad].
  split; [exact Hok | apply Hbad; reflexivity].
Defined.

(** C6, as worded, fails on a file that holds JSON of another shape than a
    list of profiles: [load_proxies] validates nothing and returns what
    [json.load] made of the text, here a list of two numbers, and prints
    nothing. *)
Lemma malformed_gives_defaults_counterexample :
  ¬ @malformed_gives_defaults codec world_other_shape.
Proof.
  intros H. destruct (H "[1, 2]" eq_refl) as [Hdefaults _].
  - intros v Hv. vm_compute in Hv. injection Hv as <-. reflexivity.
  - vm_compute in Hdefaults. discriminate Hdefaults.
Qed.

(** * Further properties of ProxyManager *)

(** X1. [get_current_proxy] never raises and changes nothing: the profiles,
    the registry, the file and what fails are as before, and the only
    effect it can have is to print "Error reading proxy". *)
Theorem get_current_proxy_read_only (w : world) :
  ∃ v, outcome get_current_proxy w = Ok v
       ∧ proxies (exec get_current_proxy w) = proxies w
       ∧ internet_settings (exec get_current_proxy w) = internet_settings w
       ∧ config_file (exec get_current_proxy w) = config_file w
       ∧ faulty (exec get_current_proxy w) = faulty w
       ∧ (trace (exec get_current_proxy w) = trace w
          ∨ (v = VNone
             ∧ trace (exec get_current_proxy w) = trace w ++ [Print Error_reading_proxy])).
Proof.
  exists (current_proxy w). unfold outcome, exec. rewrite get_current_proxy_run.
  cbn [fst snd]. unfold current_proxy.
  destruct (read_registry w); cbn; split_and!; auto.
Qed.

(** X2. When the value [ProxyEnable] is zero (or any falsy object),
    [get_current_proxy] returns [None] whatever [ProxyServer] holds and
    whatever fails: a server string left in a disabled system is not
    reported. *)
Theorem get_current_proxy_disabled (w : world) (proxy_enable : value) :
  internet_settings w !! "ProxyEnable" = Some proxy_enable →
  truthy proxy_enable = false →
  outcome get_current_proxy w = Ok VNone.
Proof.
  intros He Ht. unfold outcome. rewrite get_current_proxy_run. cbn [fst].
  unfold current_proxy, read_registry. rewrite He, Ht.
  by repeat case_match.
Qed.

Lemma get_current_proxy_disabled_witness :
  outcome get_current_proxy world_torn = Ok VNone.
Proof.
  apply (get_current_proxy_disabled world_torn (VInt 0)); reflexivity.
Defined.

(** X3. A value missing from the registry key is no error for the caller:
    when [ProxyEnable] is missing, or when proxying is enabled and
    [ProxyServer] is missing, [get_current_proxy] prints "Error reading
    proxy" and returns [None]. *)
Theorem get_current_proxy_missing_value (w : world) :
  internet_settings w !! "ProxyEnable" = None
  ∨ (∃ proxy_enable, internet_settings w !! "ProxyEnable" = Some proxy_enable
                     ∧ truthy proxy_enable = true
                     ∧ internet_settings w !! "ProxyServer" = None) →
  get_current_proxy w = (Ok VNone, emit (Print Error_reading_proxy) w).
Proof.
  intros H. rewrite get_current_proxy_run. unfold current_proxy, read_registry.
  destruct H as [He|(e & He & Ht & Hs)].
  - rewrite He. by repeat case_match.
  - rewrite He, Ht, Hs. by repeat case_match.
Qed.

Lemma get_current_proxy_missing_value_witness :
  get_current_proxy world_no_values
  = (Ok VNone, emit (Print Error_reading_proxy) world_no_values).
Proof.
  apply (get_current_proxy_missing_value world_no_values). left. reflexivity.
Defined.

(** X4. What [set_proxy] writes, [get_current_proxy] reads back: when no
    call raises, the read after [set_proxy(s)] returns [s], or [None] if
    [s] is the empty string, and the read after [set_proxy(None)] returns
    [None]. *)
Theorem set_proxy_then_get_current_proxy (s : string) (w : world) :
  write_faulty w = false → read_faulty w = false →
  outcome get_current_proxy (exec (set_proxy (VStr s)) w)
  = Ok (if String.eqb s "" then VNone else VStr s)
  ∧ outcome get_current_proxy (exec (set_proxy VNone) w) = Ok VNone.
Proof.
  intros Hw Hr.
  assert (∀ v, outcome get_current_proxy (exec (set_proxy v) w)
               = Ok (if truthy v then v else VNone)) as Hread.
  { intros v. unfold outcome, exec. rewrite (set_proxy_run_ok _ _ Hw).
    cbn [fst snd]. rewrite get_current_proxy_run. cbn [fst]. unfold current_proxy.
    erewrite read_registry_ok.
    - instantiate (1 := if truthy v then v else VStr "").
      instantiate (1 := if truthy v then VInt 1 else VInt 0).
      by destruct (truthy v).
    - done.
    - cbn. by rewrite lookup_insert_ne, lookup_insert_eq.
    - cbn. by rewrite lookup_insert_eq. }
  split.
  - rewrite Hread. cbn. by destruct (String.eqb s "").
  - by rewrite Hread.
Qed.

Lemma set_proxy_then_get_current_proxy_witness :
  outcome get_current_proxy
    (exec (set_proxy (VStr "http://vpn-proxy.example.com:8080")) world_fresh)
  = Ok (VStr "http://vpn-proxy.example.com:8080").
Proof.
  apply (set_proxy_then_get_current_proxy
           "http://vpn-proxy.example.com:8080" world_fresh); reflexivity.
Defined.

(** X5. [set_proxy] is not atomic.  When writing [ProxyServer] raises (the
    calls before it succeeding), [set_proxy] returns [False] and notifies
    nobody, yet [ProxyEnable] has been written: after an attempt to set a
    non-empty server the system has proxying enabled with the server
    string it held before. *)
Theorem set_proxy_torn_write (s : string) (old : value) (w : world) :
  s ≠ "" →
  faulty w (OpenKey KEY_WRITE) = false →
  faulty w (SetValueEx "ProxyEnable") = false →
  faulty w (SetValueEx "ProxyServer") = true →
  internet_settings w !! "ProxyServer" = Some old →
  read_faulty w = false →
  set_proxy (VStr s) w
  = (Ok false,
     emit (Print Error_setting_proxy)
       (emit (RegSet "ProxyEnable" (VInt 1))
          (set_internet_settings (<["ProxyEnable" := VInt 1]> (internet_settings w)) w)))
  ∧ outcome get_current_proxy (exec (set_proxy (VStr s)) w) = Ok old.
Proof.
  intros Hs H1 H2 H3 Hold Hr.
  assert (truthy (VStr s) = true) as Ht.
  { cbn. by apply String.eqb_neq in Hs as ->. }
  assert (set_proxy (VStr s) w
          = (Ok false,
             emit (Print Error_setting_proxy)
               (emit (RegSet "ProxyEnable" (VInt 1))
                  (set_internet_settings
                     (<["ProxyEnable" := VInt 1]> (internet_settings w)) w)))) as Hrun.
  { apply String.eqb_neq in Hs. unfold set_proxy. run_step.
    rewrite H1. cbn. rewrite Hs. cbn. rewrite H2. cbn. by rewrite H3. }
  split; [done|].
  unfold outcome, exec. rewrite Hrun. cbn [fst snd].
  rewrite get_current_proxy_run. cbn [fst]. unfold current_proxy.
  rewrite (read_registry_ok _ (VInt 1) old); [done|done| |].
  - cbn. by rewrite lookup_insert_eq.
  - cbn. by rewrite lookup_insert_ne.
Qed.

Lemma set_proxy_torn_write_witness :
  outcome get_current_proxy
    (exec (set_proxy (VStr "http://vpn-proxy.example.com:8080")) world_torn)
  = Ok (VStr "http://old.example:3128").
Proof.
  apply (set_proxy_torn_write "http://vpn-proxy.example.com:8080"
           (VStr "http://old.example:3128") world_torn); done.
Defined.

(** X6. [False] from [set_proxy] does not mean that nothing was written.
    When only the notification of the other programs raises, both registry
    values are written, no notification is sent, [False] is returned, and
    a read then reports the new server. *)
Theorem set_proxy_unnotified (s : string) (w : world) :
  s ≠ "" →
  faulty w (OpenKey KEY_WRITE) = false →
  faulty w (SetValueEx "ProxyEnable") = false →
  faulty w (SetValueEx "ProxyServer") = false →
  faulty w CloseKey = false →
  faulty w InternetSetOptionW = true →
  read_faulty w = false →
  outcome (set_proxy (VStr s)) w = Ok false
  ∧ trace (exec (set_proxy (VStr s)) w)
    = trace w ++ [ RegSet "ProxyEnable" (VInt 1); RegSet "ProxyServer" (VStr s);
                   Print Error_setting_proxy ]
  ∧ outcome get_current_proxy (exec (set_proxy (VStr s)) w) = Ok (VStr s).
Proof.
  intros Hs H1 H2 H3 H4 H5 Hr.
  assert (truthy (VStr s) = true) as Ht.
  { cbn. by apply String.eqb_neq in Hs as ->. }
  assert (set_proxy (VStr s) w
          = (Ok false,
             emit (Print Error_setting_proxy)
               (emit (RegSet "ProxyServer" (VStr s))
                  (set_internet_settings
                     (<["ProxyServer" := VStr s]>
                        (<["ProxyEnable" := VInt 1]> (internet_settings w)))
                     (emit (RegSet "ProxyEnable" (VInt 1)) w))))) as Hrun.
  { apply String.eqb_neq in Hs. unfold set_proxy. run_step.
    rewrite H1. cbn. rewrite Hs. cbn. rewrite H2. cbn. rewrite H3. cbn.
    rewrite H4. cbn. by rewrite H5. }
  unfold outcome, exec. rewrite Hrun. cbn [fst snd]. split_and!; [done| |].
  - cbn. by rewrite <- !(assoc_L (++)).
  - rewrite get_current_proxy_run. cbn [fst]. unfold current_proxy.
    rewrite (read_registry_ok _ (VInt 1) (VStr s)); [done|done| |].
    + cbn. by rewrite lookup_insert_ne, lookup_insert_eq.
    + cbn. by rewrite lookup_insert_eq.
Qed.

Lemma set_proxy_unnotified_witness :
  outcome (set_proxy (VStr "http://vpn-proxy.example.com:8080")) world_unnotified
  = Ok false
  ∧ outcome get_current_proxy
      (exec (set_proxy (VStr "http://vpn-proxy.example.com:8080")) world_unnotified)
    = Ok (VStr "http://vpn-proxy.example.com:8080").
Proof.
  pose proof (set_proxy_unnotified "http://vpn-proxy.example.com:8080"
                world_unnotified) as H.
  destruct H as (Hout & _ & Hread); done.
Defined.

(** X7. [set_proxy], called with a string or with [None], never raises,
    returns [True] exactly when none of the calls on its path raises, and
    whatever happens it touches nothing but the two registry values
    [ProxyEnable] and [ProxyServer]: the profiles, the configuration file
    and every other value of the key are as before. *)
Theorem set_proxy_touches_two_values (s : option string) (w : world) :
  outcome (set_proxy (server_object s)) w = Ok (negb (write_faulty w))
  ∧ proxies (exec (set_proxy (server_object s)) w) = proxies w
  ∧ config_file (exec (set_proxy (server_object s)) w) = config_file w
  ∧ ∀ value_name, value_name ≠ "ProxyEnable" → value_name ≠ "ProxyServer" →
      internet_settings (exec (set_proxy (server_object s)) w) !! value_name
      = internet_settings w !! value_name.
Proof.
  generalize (server_object s). intros proxy_server.
  assert (∀ value_name, value_name ≠ "ProxyEnable" → value_name ≠ "ProxyServer" →
            internet_settings (exec (set_proxy proxy_server) w) !! value_name
            = internet_settings w !! value_name) as Hother.
  { intros value_name Hne1 Hne2. unfold exec, set_proxy. run_step.
    repeat match goal with
           | |- context [faulty ?w0 ?c] => destruct (faulty w0 c) eqn:?; cbn
           | |- context [truthy proxy_server] => destruct (truthy proxy_server); cbn
           end.
    all: by rewrite ?lookup_insert_ne by done. }
  destruct (set_proxy_frame proxy_server w) as (w' & Hrun & Hps & Hcf & _).
  split_and!; [| | |done]; unfold outcome, exec; by rewrite Hrun.
Qed.

(** X8. The last [set_proxy] wins: when no call raises, the registry after
    two calls in a row is the registry after the second call alone; in
    particular calling it twice with one argument is calling it once. *)
Theorem set_proxy_overwrites (first second : option string) (w : world) :
  write_faulty w = false →
  internet_settings
    (exec (set_proxy (server_object second)) (exec (set_proxy (server_object first)) w))
  = internet_settings (exec (set_proxy (server_object second)) w).
Proof.
  intros Hw. unfold exec. rewrite (set_proxy_run_ok _ w Hw). cbn [snd].
  rewrite (set_proxy_run_ok _ (written (server_object first) w) Hw).
  rewrite (set_proxy_run_ok _ w Hw). cbn.
  apply map_eq. intros k. rewrite !lookup_insert.
  by repeat case_decide.
Qed.

Lemma set_proxy_overwrites_witness :
  internet_settings
    (exec (set_proxy VNone)
       (exec (set_proxy (VStr "http://vpn-proxy.example.com:8080")) world_fresh))
  = internet_settings (exec (set_proxy VNone) world_fresh).
Proof.
  apply (set_proxy_overwrites (Some "http://vpn-proxy.example.com:8080") None
           world_fresh).
  reflexivity.
Defined.

(** * Further properties of ProxyConfig *)

Section more_storage.
Context {J : Json}.

(** X9. [save_proxies] never raises and touches neither the profiles nor
    the registry; when the file cannot be opened for writing, the file is
    left as it was and "Error saving config" is printed. *)
Theorem save_proxies_cannot_open (obj : value) (w : world) :
  outcome (save_proxies obj) w = Ok ()
  ∧ proxies (exec (save_proxies obj) w) = proxies w
  ∧ internet_settings (exec (save_proxies obj) w) = internet_settings w
  ∧ (faulty w (open_file mode_w) = true →
     config_file (exec (save_proxies obj) w) = config_file w
     ∧ trace (exec (save_proxies obj) w) = trace w ++ [Print Error_saving_config]).
Proof.
  destruct (save_proxies_frame obj w) as (w' & Hrun & Hps & Hreg & _).
  unfold outcome, exec. rewrite Hrun. cbn [fst snd]. split_and!; try done.
  intros Hopen. clear Hps Hreg. revert Hrun.
  unfold save_proxies, json_dump_file. run_step. rewrite Hopen. cbn.
  by intros [= <-].
Qed.

(** X10. A save that fails while writing loses the previous content: the
    file has been opened for writing and is left empty, "Error saving
    config" is printed; and a [load_proxies] after it, for which the empty
    text is no JSON, returns the default profiles. *)
Theorem save_proxies_write_fails (obj : value) (w : world) :
  faulty w (open_file mode_w) = false →
  faulty w write_file = true →
  json_load "" = None →
  save_proxies obj w
  = (Ok (), emit (Print Error_saving_config) (set_config_file (Some "") w))
  ∧ outcome load_proxies (exec (save_proxies obj) w) = Ok DEFAULT_PROXIES.
Proof.
  intros Hopen Hwrite Hempty.
  assert (save_proxies obj w
          = (Ok (), emit (Print Error_saving_config) (set_config_file (Some "") w)))
    as Hrun.
  { unfold save_proxies, json_dump_file. run_step. rewrite Hopen. cbn.
    by rewrite Hwrite. }
  split; [done|]. unfold outcome, exec. rewrite Hrun. cbn [snd].
  unfold load_proxies, os_path_exists, json_load_file, read_config. run_step.
  destruct (faulty w (open_file mode_r)); cbn; [done|].
  destruct (faulty w read_file); cbn; [done|]. by rewrite Hempty.
Qed.

(** X11. A save replaces the file, it neither appends nor merges: when no
    file operation fails, after saving one object and then another the
    file holds the text of the second alone, whatever it held before. *)
Theorem save_proxies_overwrites (first second : value) (w : world) :
  save_faulty w = false →
  config_file (exec (save_proxies second) (exec (save_proxies first) w))
  = Some (json_dump second).
Proof.
  intros Hs. unfold exec. rewrite (save_proxies_run_ok first w Hs). cbn [snd].
  by rewrite save_proxies_run_ok.
Qed.

(** X12. [load_proxies] never raises, whatever the file holds and whatever
    fails, and it touches neither the profiles nor the registry; what it
    returns is the default list or the object [json.load] made of the
    file's text. *)
Theorem load_proxies_never_raises (w : world) :
  ∃ v, outcome load_proxies w = Ok v
       ∧ (v = DEFAULT_PROXIES
          ∨ ∃ text, config_file w = Some text ∧ json_load text = Some v)
       ∧ proxies (exec load_proxies w) = proxies w
       ∧ internet_settings (exec load_proxies w) = internet_settings w.
Proof.
  unfold outcome, exec, load_proxies, os_path_exists, json_load_file, read_config.
  destruct (config_file w) as [text|] eqn:Hfile.
  - run_step. rewrite Hfile. cbn.
    destruct (faulty w (open_file mode_r)); cbn; [by eexists; split_and!; eauto|].
    rewrite Hfile.
    destruct (faulty w read_file); cbn; [by eexists; split_and!; eauto|].
    destruct (json_load text) as [v|] eqn:Hv; cbn; eexists; split_and!; eauto.
  - destruct (save_proxies_frame DEFAULT_PROXIES w) as (w' & Hrun & Hps & Hreg & _).
    run_step. rewrite Hfile. cbn. rewrite Hrun. cbn.
    eexists; split_and!; eauto.
Qed.

End more_storage.

Lemma save_proxies_cannot_open_witness :
  config_file (exec (@save_proxies codec DEFAULT_PROXIES) world_locked_file)
  = Some "[]".
Proof.
  apply (@save_proxies_cannot_open codec DEFAULT_PROXIES world_locked_file).
  reflexivity.
Defined.

Lemma save_proxies_write_fails_witness :
  outcome (@load_proxies codec)
    (exec (@save_proxies codec DEFAULT_PROXIES) world_disk_full)
  = Ok DEFAULT_PROXIES.
Proof.
  apply (@save_proxies_write_fails codec DEFAULT_PROXIES world_disk_full);
    reflexivity.
Defined.

Lemma save_proxies_overwrites_witness :
  config_file (exec (@save_proxies codec (VList []))
                 (exec (@save_proxies codec DEFAULT_PROXIES) world_fresh))
  = Some "[]".
Proof.
  apply (@save_proxies_overwrites codec DEFAULT_PROXIES (VList []) world_fresh).
  reflexivity.
Defined.

Section loading.
Context {J : Json}.

(** X13. The first run: when there is no configuration file,
    [load_proxies] returns the default profiles and, if the file can be
    written, creates it with the text of the defaults; if it cannot, the
    defaults are returned all the same and the message printed is "Error
    saving config". *)
Theorem load_proxies_first_run (w : world) :
  config_file w = None →
  outcome load_proxies w = Ok DEFAULT_PROXIES
  ∧ (save_faulty w = false →
     config_file (exec load_proxies w) = Some (json_dump DEFAULT_PROXIES)
     ∧ trace (exec load_proxies w) = trace w ++ [FileWrite (json_dump DEFAULT_PROXIES)])
  ∧ (save_faulty w = true →
     trace (exec load_proxies w) = trace w ++ [Print Error_saving_config]).
Proof.
  intros Hfile.
  assert (load_proxies w
          = (Ok DEFAULT_PROXIES, exec (save_proxies DEFAULT_PROXIES) w)) as Hrun.
  { destruct (save_proxies_frame DEFAULT_PROXIES w) as (w' & Hsave & _).
    unfold load_proxies, os_path_exists, exec. run_step.
    rewrite Hfile. cbn. by rewrite Hsave. }
  unfold outcome, exec. rewrite Hrun. cbn [fst snd]. unfold exec. split_and!; [done| |].
  - intros Hs. by rewrite (save_proxies_run_ok _ _ Hs).
  - unfold save_faulty. unfold save_proxies, json_dump_file. run_step.
    destruct (faulty w (open_file mode_w)); cbn; [done|].
    destruct (faulty w write_file); cbn; done.
Qed.

(** X14. [load_proxies] does not validate: when the file holds JSON and
    reading does not fail, it returns the object [json.load] makes of the
    text, whatever its shape, prints nothing and changes nothing. *)
Theorem load_proxies_returns_any_json (text : string) (v : value) (w : world) :
  config_file w = Some text → json_load text = Some v → load_faulty w = false →
  load_proxies w = (Ok v, w).
Proof.
  intros Hfile Hv [Ho Hr]%orb_false_elim.
  unfold load_proxies, os_path_exists, json_load_file, read_config. run_step.
  rewrite Hfile. cbn. rewrite Ho. cbn. rewrite Hfile. cbn. rewrite Hr. cbn.
  by rewrite Hv.
Qed.

(** X15. A configuration file that cannot be read is not replaced: when
    opening or reading the existing file raises, [load_proxies] prints
    "Error loading config", returns the default profiles and leaves the
    file as it is. *)
Theorem load_proxies_cannot_read (text : string) (w : world) :
  config_file w = Some text → load_faulty w = true →
  load_proxies w = (Ok DEFAULT_PROXIES, emit (Print Error_loading_config) w).
Proof.
  intros Hfile Hl. unfold load_faulty in Hl.
  unfold load_proxies, os_path_exists, json_load_file, read_config. run_step.
  rewrite Hfile. cbn.
  destruct (faulty w (open_file mode_r)); cbn; [done|]. rewrite Hfile. cbn.
  destruct (faulty w read_file); cbn; done.
Qed.

(** X16. The file created at the first run is read back at the next one:
    with a json module that reads back the profile lists it writes and no
    failing file operation, a second [load_proxies] returns the default
    profiles again, now from the file, and changes nothing. *)
Theorem load_proxies_after_first_run {R : JsonRoundTrip J} (w : world) :
  config_file w = None → save_faulty w = false → load_faulty w = false →
  load_proxies (exec load_proxies w) = (Ok DEFAULT_PROXIES, exec load_proxies w).
Proof.
  intros Hfile Hs Hl.
  assert (load_proxies w
          = (Ok DEFAULT_PROXIES,
             emit (FileWrite (json_dump DEFAULT_PROXIES))
               (set_config_file (Some (json_dump DEFAULT_PROXIES)) w))) as Hrun.
  { unfold load_proxies, os_path_exists. run_step. rewrite Hfile. cbn.
    by rewrite (save_proxies_run_ok _ _ Hs). }
  unfold exec. rewrite Hrun. cbn [snd].
  apply (load_proxies_returns_any_json (json_dump DEFAULT_PROXIES)); [done| |done].
  apply (json_round_trip default_profiles).
Qed.

End loading.

Lemma load_proxies_first_run_witness :
  outcome (@load_proxies codec) world_fresh = Ok DEFAULT_PROXIES
  ∧ config_file (exec (@load_proxies codec) world_fresh)
    = Some (dumps 0 DEFAULT_PROXIES).
Proof.
  pose proof (@load_proxies_first_run codec world_fresh eq_refl) as (Hout & Hfile & _).
  split; [exact Hout|]. apply Hfile. reflexivity.
Defined.

Lemma load_proxies_returns_any_json_witness :
  @load_proxies codec (set_config_file (Some "[true, null]") world_fresh)
  = (Ok (VList [VBool true; VNone]),
     set_config_file (Some "[true, null]") world_fresh).
Proof.
  apply (@load_proxies_returns_any_json codec "[true, null]"); reflexivity.
Defined.

Lemma load_proxies_cannot_read_witness :
  @load_proxies codec world_unreadable_file
  = (Ok DEFAULT_PROXIES, emit (Print Error_loading_config) world_unreadable_file).
Proof.
  apply (@load_proxies_cannot_read codec (dumps 0 DEFAULT_PROXIES)); reflexivity.
Defined.

Lemma load_proxies_after_first_run_witness :
  outcome (@load_proxies codec) (exec (@load_proxies codec) world_fresh)
  = Ok DEFAULT_PROXIES.
Proof.
  unfold outcome.
  rewrite (@load_proxies_after_first_run codec codec_round_trip world_fresh
             eq_refl eq_refl eq_refl).
  reflexivity.
Defined.

(** * Further properties of toggle_proxy *)

Lemma name_set_flags (c : value) (ps : list proxy) :
  name <$> set_flags c ps = name <$> ps.
Proof. unfold set_flags. rewrite <- list_fmap_compose. by apply list_fmap_ext. Qed.

Lemma name_off (ps : list proxy) :
  name <$> (with_enabled false <$> ps) = name <$> ps.
Proof. rewrite <- list_fmap_compose. by apply list_fmap_ext. Qed.

Lemma count_enabled_positive (ps : list proxy) (i : nat) (p : proxy) :
  ps !! i = Some p → enabled p = true → 1 ≤ count_enabled ps.
Proof.
  intros Hp He. unfold count_enabled.
  assert (p ∈ filter (λ q, enabled q = true) ps) as Hin.
  { apply list_elem_of_filter. split; [done|]. by eapply list_elem_of_lookup_2. }
  destruct (filter _ ps); [by apply elem_of_nil in Hin|cbn; lia].
Qed.

Section more_toggling.
Context {J : Json}.

Lemma do_step_names (s : step) (w : world) :
  name <$> proxies (do_step s w) = name <$> proxies w.
Proof.
  destruct s as [[index|]|]; cbn [do_step perform]; [| |done].
  - destruct (proxies w !! index) as [p|] eqn:Hp.
    + destruct (toggle_proxy_spec index p w Hp) as (_ & _ & _ & _ & _ & _ & -> & _ & _).
      apply name_set_flags.
    + apply lookup_ge_None in Hp. unfold exec.
      rewrite toggle_proxy_out_of_range by done. apply name_off.
  - unfold exec. rewrite update_ui_run. apply name_set_flags.
Qed.

(** X17. The program never edits the list of profiles: after any history
    of calls of [toggle_proxy] (with any index) and [update_ui] and of
    changes made by others, the profiles have the names and the servers
    they had, in the same order; only [enabled] flags change. *)
Theorem history_keeps_profiles (steps : list step) (w : world) :
  name <$> proxies (history steps w) = name <$> proxies w
  ∧ server <$> proxies (history steps w) = server <$> proxies w
  ∧ length (proxies (history steps w)) = length (proxies w).
Proof.
  assert (name <$> proxies (history steps w) = name <$> proxies w) as Hn.
  { unfold history. revert w. induction steps as [|s steps IH]; intros w; [done|].
    cbn. by rewrite IH, do_step_names. }
  split_and!; [done|apply history_servers|].
  by rewrite <- (length_fmap name), Hn, length_fmap.
Qed.

(** X18. An index past the end of the list makes [toggle_proxy] raise
    [IndexError]; by then it has marked every profile off, and it has
    written nothing to the system, saved nothing and printed nothing.  On
    an empty list every index is past the end. *)
Theorem toggle_proxy_past_the_end (index : nat) (w : world) :
  length (proxies w) ≤ index →
  outcome (toggle_proxy index) w = Raise IndexError
  ∧ proxies (exec (toggle_proxy index) w) = with_enabled false <$> proxies w
  ∧ internet_settings (exec (toggle_proxy index) w) = internet_settings w
  ∧ config_file (exec (toggle_proxy index) w) = config_file w
  ∧ trace (exec (toggle_proxy index) w) = trace w.
Proof.
  intros Hi. unfold outcome, exec. by rewrite toggle_proxy_out_of_range.
Qed.

(** A call of [toggle_proxy] when neither the write nor the read fails, in
    full. *)
Lemma toggle_proxy_ok_run (index : nat) (p : proxy) (w : world) :
  proxies w !! index = Some p →
  write_faulty w = false → read_faulty w = false →
  exec (toggle_proxy index) w
  = set_proxies
      (set_flags (if truthy (write_argument p) then write_argument p else VNone)
         (proxies w))
      (exec (save_proxies (profiles_value (toggled index (proxies w))))
         (written (write_argument p) (set_proxies (toggled index (proxies w)) w))).
Proof.
  intros Hp Hw Hr.
  destruct (toggle_proxy_stages index p w Hp)
    as (w2 & w3 & Hset & Hsave & Hrun & Hps3 & Hf3 & Hreg3 & Hcf2 & Hf2 & Hps2).
  rewrite (set_proxy_run_ok (write_argument p)
             (set_proxies (toggled index (proxies w)) w) Hw) in Hset.
  rewrite Hw in Hset. injection Hset as <-.
  assert (read_registry w3
          = Some (if truthy (write_argument p) then write_argument p else VNone))
    as Hread.
  { erewrite read_registry_ok.
    - instantiate (1 := if truthy (write_argument p) then write_argument p else VStr "").
      instantiate (1 := if truthy (write_argument p) then VInt 1 else VInt 0).
      by destruct (truthy (write_argument p)).
    - unfold read_faulty in *. by rewrite Hf3.
    - rewrite Hreg3. cbn. by rewrite lookup_insert_ne, lookup_insert_eq.
    - rewrite Hreg3. cbn. by rewrite lookup_insert_eq. }
  unfold exec at 1. rewrite Hrun, update_ui_run. unfold current_proxy. rewrite Hread.
  cbn [snd default]. rewrite Hps3, set_flags_toggled.
  unfold exec. by rewrite Hsave.
Qed.

(** X19. Activating switches directly and exclusively.  When the profile at
    [index] is marked off and has a server, and neither the write nor the
    read of the system fails, then after [toggle_proxy] the system proxy
    is that server, set by one write of the two registry values without a
    disabling write before; the profile is enabled, and so are exactly the
    profiles with the same server, whichever profile was enabled before.
    With distinct servers exactly one profile is enabled. *)
Theorem toggle_proxy_activates (index : nat) (p : proxy) (w : world) :
  proxies w !! index = Some p → enabled p = false → server p ≠ "" →
  write_faulty w = false → read_faulty w = false →
  proxies (exec (toggle_proxy index) w) = set_flags (VStr (server p)) (proxies w)
  ∧ proxies (exec (toggle_proxy index) w) !! index = Some (with_enabled true p)
  ∧ internet_settings (exec (toggle_proxy index) w) !! "ProxyEnable" = Some (VInt 1)
  ∧ internet_settings (exec (toggle_proxy index) w) !! "ProxyServer"
    = Some (VStr (server p))
  ∧ (∃ e, trace (exec (toggle_proxy index) w)
          = trace w
            ++ [ RegSet "ProxyEnable" (VInt 1); RegSet "ProxyServer" (VStr (server p));
                 InternetSetOption INTERNET_OPTION_SETTINGS_CHANGED;
                 InternetSetOption INTERNET_OPTION_REFRESH; e ])
  ∧ (distinct_servers (proxies w) →
     count_enabled (proxies (exec (toggle_proxy index) w)) = 1).
Proof.
  intros Hp Hen Hs Hw Hr.
  rewrite (toggle_proxy_ok_run index p w Hp Hw Hr).
  assert (write_argument p = VStr (server p)) as -> by (unfold write_argument; by rewrite Hen).
  assert (truthy (VStr (server p)) = true) as Ht.
  { cbn. by apply String.eqb_neq in Hs as ->. }
  rewrite Ht.
  destruct (save_proxies_frame (profiles_value (toggled index (proxies w)))
              (written (VStr (server p)) (set_proxies (toggled index (proxies w)) w)))
    as (w3 & Hsave & _ & Hreg & _ & e & He).
  unfold exec. rewrite Hsave. cbn [snd proxies set_proxies internet_settings trace].
  assert (set_flags (VStr (server p)) (proxies w) !! index = Some (with_enabled true p))
    as Hlookup.
  { unfold set_flags. rewrite list_lookup_fmap, Hp. cbn.
    by rewrite is_active_str, bool_decide_true. }
  assert (String.eqb (server p) "" = false) as Hs' by (by apply String.eqb_neq).
  split_and!; try done.
  - rewrite Hreg. cbn. rewrite Hs'. by rewrite lookup_insert_ne, lookup_insert_eq.
  - rewrite Hreg. cbn. rewrite Hs'. by rewrite lookup_insert_eq.
  - exists e. rewrite He. cbn. rewrite Hs'. by rewrite <- (assoc_L (++)).
  - intros Hd.
    pose proof (count_enabled_set_flags (VStr (server p)) (proxies w) Hd).
    pose proof (count_enabled_positive _ _ _ Hlookup eq_refl). lia.
Qed.

(** X20. [toggle_proxy] switches the system proxy off when the selected
    profile is marked enabled, whatever the system is using by then, and
    also when the selected profile has no server: when neither the write
    nor the read fails, the disabling write is performed and every
    profile ends off. *)
Theorem toggle_proxy_deactivates (index : nat) (p : proxy) (w : world) :
  proxies w !! index = Some p → enabled p = true ∨ server p = "" →
  write_faulty w = false → read_faulty w = false →
  proxies (exec (toggle_proxy index) w) = with_enabled false <$> proxies w
  ∧ internet_settings (exec (toggle_proxy index) w) !! "ProxyEnable" = Some (VInt 0)
  ∧ internet_settings (exec (toggle_proxy index) w) !! "ProxyServer" = Some (VStr "")
  ∧ ∃ e, trace (exec (toggle_proxy index) w) = trace w ++ disabling_write ++ [e].
Proof.
  intros Hp Hcase Hw Hr.
  rewrite (toggle_proxy_ok_run index p w Hp Hw Hr).
  assert (truthy (write_argument p) = false) as Ht.
  { unfold write_argument. destruct (enabled p); [done|].
    destruct Hcase as [He|He]; [done|]. by rewrite He. }
  rewrite Ht.
  destruct (save_proxies_frame (profiles_value (toggled index (proxies w)))
              (written (write_argument p) (set_proxies (toggled index (proxies w)) w)))
    as (w3 & Hsave & _ & Hreg & _ & e & He).
  unfold exec. rewrite Hsave. cbn [snd proxies set_proxies internet_settings trace].
  split_and!.
  - by apply set_flags_falsy.
  - rewrite Hreg. cbn. rewrite Ht. by rewrite lookup_insert_ne, lookup_insert_eq.
  - rewrite Hreg. cbn. rewrite Ht. by rewrite lookup_insert_eq.
  - exists e. rewrite He. cbn. rewrite Ht. by rewrite <- (assoc_L (++)).
Qed.

(** X21. A save that fails does not undo the switch: when the write and
    the read of the system succeed but the configuration file cannot be
    opened for writing, [toggle_proxy] returns normally, the system is
    switched and the flags follow it; the file is as it was and "Error
    saving config" is all that tells. *)
Theorem toggle_proxy_unsaved (index : nat) (p : proxy) (w : world) :
  proxies w !! index = Some p →
  write_faulty w = false → read_faulty w = false →
  faulty w (open_file mode_w) = true →
  outcome (toggle_proxy index) w = Ok ()
  ∧ internet_settings (exec (toggle_proxy index) w)
    = internet_settings (written (write_argument p) w)
  ∧ proxies (exec (toggle_proxy index) w)
    = set_flags (current_proxy (written (write_argument p) w)) (proxies w)
  ∧ config_file (exec (toggle_proxy index) w) = config_file w
  ∧ trace (exec (toggle_proxy index) w)
    = trace (written (write_argument p) w) ++ [Print Error_saving_config].
Proof.
  intros Hp Hw Hr Hopen.
  destruct (toggle_proxy_spec index p w Hp) as (w2 & w3 & _ & _ & _ & Hout & _).
  split; [done|]. clear w2 w3 Hout.
  rewrite (toggle_proxy_ok_run index p w Hp Hw Hr).
  assert (exec (save_proxies (profiles_value (toggled index (proxies w))))
            (written (write_argument p) (set_proxies (toggled index (proxies w)) w))
          = emit (Print Error_saving_config)
              (written (write_argument p) (set_proxies (toggled index (proxies w)) w)))
    as ->.
  { unfold exec, save_proxies, json_dump_file. run_step. by rewrite Hopen. }
  split_and!; try done.
  cbn [proxies set_proxies]. f_equal. unfold current_proxy.
  erewrite read_registry_ok.
  - instantiate (1 := if truthy (write_argument p) then write_argument p else VStr "").
    instantiate (1 := if truthy (write_argument p) then VInt 1 else VInt 0).
    by destruct (truthy (write_argument p)).
  - done.
  - cbn. by rewrite lookup_insert_ne, lookup_insert_eq.
  - cbn. by rewrite lookup_insert_eq.
Qed.

End more_toggling.

Lemma toggle_proxy_past_the_end_witness :
  outcome (@toggle_proxy codec 2) world_blank_first = Raise IndexError
  ∧ enabled <$> proxies (exec (@toggle_proxy codec 2) world_blank_first)
    = [false; false].
Proof.
  pose proof (@toggle_proxy_past_the_end codec 2 world_blank_first) as H.
  destruct H as (Hout & Hps & _); [cbn; lia|].
  split; [exact Hout|]. by rewrite Hps.
Defined.

Lemma toggle_proxy_activates_witness :
  enabled <$> proxies (exec (@toggle_proxy codec 1) (exec (@toggle_proxy codec 0) world_fresh))
  = [false; true].
Proof.
  pose proof (@toggle_proxy_activates codec 1
                (Proxy "VPN Proxy" "http://vpn-proxy.example.com:8080" false)
                (exec (@toggle_proxy codec 0) world_fresh)) as H.
  destruct H as (Hps & _); [reflexivity|reflexivity|done|reflexivity|reflexivity|].
  by rewrite Hps.
Defined.

Lemma toggle_proxy_deactivates_witness :
  enabled <$> proxies (exec (@toggle_proxy codec 0) world_blank_first) = [false; false]
  ∧ internet_settings (exec (@toggle_proxy codec 0) world_blank_first) !! "ProxyEnable"
    = Some (VInt 0).
Proof.
  pose proof (@toggle_proxy_deactivates codec 0 (Proxy "Office Proxy" "" false)
                world_blank_first) as H.
  destruct H as (Hps & Hreg & _); [reflexivity|by right|reflexivity|reflexivity|].
  split; [by rewrite Hps|exact Hreg].
Defined.

Lemma toggle_proxy_unsaved_witness :
  outcome (@toggle_proxy codec 0) world_locked_file = Ok ()
  ∧ config_file (exec (@toggle_proxy codec 0) world_locked_file) = Some "[]".
Proof.
  pose proof (@toggle_proxy_unsaved codec 0
                (Proxy "Office Proxy" "http://proxy-example.corp.com:912" false)
                world_locked_file) as H.
  destruct H as (Hout & _ & _ & Hfile & _); try reflexivity.
  split; [exact Hout|exact Hfile].
Defined.

(** * The switches *)

Lemma ui_bind_run {A B : Type} (m : UI A) (f : A → UI B) (g : widget) :
  (m ≫= f) g =
    match m g with
    | (Done a, g') => f a g'
    | (Raised e, g') => (Raised e, g')
    end.
Proof. reflexivity. Qed.

Lemma world_eta (w : world) : set_proxies (proxies w) w = w.
Proof. by destruct w. Qed.

Lemma widget_eta (g : widget) :
  {| state := state g; proxy_toggles := proxy_toggles g |} = g.
Proof. by destruct g. Qed.

Lemma is_on_set_state (b : bool) (t : switch) : is_on (set_state b t) = b.
Proof.
  unfold set_state. case_bool_decide as H; [done|].
  destruct (is_on t), b; naive_solver.
Qed.

Lemma shown_set_state (b : bool) (t : switch) :
  shown t = is_on t → shown (set_state b t) = is_on (set_state b t).
Proof. unfold set_state. by case_bool_decide. Qed.

Lemma for_each_app (l1 l2 : list nat) (body : nat → UI unit) (g : widget) :
  for_each (l1 ++ l2) body g
  = match for_each l1 body g with
    | (Done _, g') => for_each l2 body g'
    | (Raised e, g') => (Raised e, g')
    end.
Proof.
  revert g. induction l1 as [|i l1 IH]; intros g; [done|].
  cbn [for_each app]. rewrite !ui_bind_run.
  destruct (body i g) as [[[]|e] g']; [apply IH|done].
Qed.

Lemma assign_enabled_run (i : nat) (b : bool) (p : proxy) (g : widget) :
  proxies (state g) !! i = Some p →
  assign_enabled i b g
  = (Done (),
     set_state_world
       (set_proxies (<[i := with_enabled b p]> (proxies (state g))) (state g)) g).
Proof. intros Hp. unfold assign_enabled. rewrite ui_bind_run. cbn. by rewrite Hp. Qed.

Lemma toggle_set_state_run (i : nat) (b : bool) (t : switch) (g : widget) :
  proxy_toggles g !! i = Some t →
  toggle_set_state i b g
  = (Done (), set_proxy_toggles (<[i := set_state b t]> (proxy_toggles g)) g).
Proof. intros Ht. unfold toggle_set_state. rewrite ui_bind_run. cbn. by rewrite Ht. Qed.

Section loops.
Variable fp : nat → proxy → proxy.
Variable ft : nat → proxy → switch → switch.
Variable body : nat → UI unit.
Hypothesis body_run : ∀ i g p t,
  proxies (state g) !! i = Some p → proxy_toggles g !! i = Some t →
  body i g
  = (Done (),
     {| state := set_proxies (<[i := fp i p]> (proxies (state g))) (state g);
        proxy_toggles := <[i := ft i p t]> (proxy_toggles g) |}).

Lemma looped_0 (g : widget) : looped fp ft 0 g = g.
Proof.
  unfold looped. rewrite <- (widget_eta g) at 4. f_equal.
  - rewrite <- (world_eta (state g)) at 3. f_equal.
    apply list_eq. intros j. rewrite list_lookup_imap.
    by destruct (proxies (state g) !! j).
  - apply map_eq. intros j. rewrite map_lookup_imap.
    by destruct (proxy_toggles g !! j).
Qed.

Lemma looped_S (n : nat) (g : widget) (p : proxy) (t : switch) :
  proxies (state g) !! n = Some p → proxy_toggles g !! n = Some t →
  {| state := set_proxies (<[n := fp n p]> (proxies (state (looped fp ft n g))))
                (state (looped fp ft n g));
     proxy_toggles := <[n := ft n p t]> (proxy_toggles (looped fp ft n g)) |}
  = looped fp ft (S n) g.
Proof.
  intros Hp Ht. unfold looped. cbn [state proxy_toggles proxies set_proxies].
  f_equal.
  - unfold set_proxies. cbn. f_equal. apply list_eq. intros j.
    destruct (decide (j = n)) as [->|Hne].
    + rewrite list_lookup_insert_eq.
      * rewrite list_lookup_imap, Hp. cbn. by rewrite bool_decide_true by lia.
      * rewrite length_imap. by eapply lookup_lt_Some.
    + rewrite list_lookup_insert_ne by done. rewrite !list_lookup_imap.
      destruct (proxies (state g) !! j); [cbn|done].
      destruct (decide (j < n)).
      * by rewrite !bool_decide_true by lia.
      * by rewrite !bool_decide_false by lia.
  - apply map_eq. intros j.
    destruct (decide (j = n)) as [->|Hne].
    + rewrite lookup_insert_eq, map_lookup_imap, Ht. cbn.
      by rewrite bool_decide_true, Hp by lia.
    + rewrite lookup_insert_ne by done. rewrite !map_lookup_imap.
      destruct (proxy_toggles g !! j); [cbn|done].
      destruct (decide (j < n)).
      * by rewrite !bool_decide_true by lia.
      * by rewrite !bool_decide_false by lia.
Qed.

Lemma for_each_looped (n : nat) (g : widget) :
  n ≤ length (proxies (state g)) →
  (∀ i, i < n → is_Some (proxy_toggles g !! i)) →
  for_each (seq 0 n) body g = (Done (), looped fp ft n g).
Proof.
  induction n as [|n IH]; intros Hn Hcover.
  - by rewrite looped_0.
  - rewrite seq_S, for_each_app, IH by (lia || auto with lia). cbn [for_each Nat.add].
    destruct (lookup_lt_is_Some_2 (proxies (state g)) n ltac:(lia)) as [p Hp].
    destruct (Hcover n ltac:(lia)) as [t Ht].
    rewrite ui_bind_run.
    rewrite (body_run n (looped fp ft n g) p t).
    + by rewrite (looped_S n g p t Hp Ht).
    + unfold looped. cbn. rewrite list_lookup_imap, Hp. cbn.
      by rewrite bool_decide_false by lia.
    + unfold looped. cbn. rewrite map_lookup_imap, Ht. cbn.
      by rewrite bool_decide_false by lia.
Qed.

End loops.

Lemma looped_state_full (fp : nat → proxy → proxy) (ft : nat → proxy → switch → switch)
    (g : widget) :
  state (looped fp ft (length (proxies (state g))) g)
  = set_proxies (imap fp (proxies (state g))) (state g).
Proof.
  unfold looped. cbn. f_equal. apply list_eq. intros j.
  rewrite !list_lookup_imap. destruct (proxies (state g) !! j) eqn:Hj; [cbn|done].
  apply lookup_lt_Some in Hj. by rewrite bool_decide_true.
Qed.

Lemma looped_cover (fp : nat → proxy → proxy) (ft : nat → proxy → switch → switch)
    (n : nat) (g : widget) :
  switches_cover g → switches_cover (looped fp ft n g).
Proof.
  intros Hc i Hi. unfold looped in *. cbn in *. rewrite length_imap in Hi.
  rewrite map_lookup_imap. destruct (Hc i Hi) as [t ->]. by eexists.
Qed.

Lemma looped_drawn (fp : nat → proxy → proxy) (ft : nat → proxy → switch → switch)
    (n : nat) (g : widget) :
  (∀ j p t, shown t = is_on t → shown (ft j p t) = is_on (ft j p t)) →
  switches_drawn g → switches_drawn (looped fp ft n g).
Proof.
  intros Hft Hd i t'. unfold looped. cbn. rewrite map_lookup_imap.
  destruct (proxy_toggles g !! i) as [t|] eqn:Ht; [cbn|done].
  intros [= <-]. specialize (Hd i t Ht).
  case_bool_decide; [|done]. destruct (proxies (state g) !! i); auto.
Qed.

Section switches.
Context {J : Json}.

(** [update_ui] with the switches, run. *)
Lemma update_ui_switches_run (g : widget) :
  switches_cover g →
  update_ui_switches g
  = (Done (),
     looped (λ _ p, with_enabled (is_active (current_proxy (state g)) p) p)
       (λ _ p t, set_state (is_active (current_proxy (state g)) p) t)
       (length (proxies (state g)))
       (set_state_world (exec get_current_proxy (state g)) g)).
Proof.
  intros Hc. unfold update_ui_switches. rewrite ui_bind_run.
  unfold lift at 1, exec. rewrite get_current_proxy_run. cbn [snd].
  rewrite ui_bind_run. unfold get_widget at 1.
  set (g1 := set_state_world _ g).
  assert (proxies (state g1) = proxies (state g)) as Hps.
  { unfold g1. cbn. by destruct (read_registry (state g)). }
  replace (length (proxies (state g))) with (length (proxies (state g1)))
    by (by rewrite Hps).
  apply for_each_looped.
  - intros i g' p t Hp Ht. rewrite ui_bind_run. unfold get_widget at 1. rewrite Hp.
    rewrite ui_bind_run, (toggle_set_state_run _ _ t) by done.
    by rewrite (assign_enabled_run _ _ p).
  - done.
  - intros i Hi. apply Hc. by rewrite <- Hps.
Qed.

(** What [update_ui] with the switches leaves. *)
Lemma update_ui_switches_spec (g : widget) :
  switches_cover g →
  ∃ g', update_ui_switches g = (Done (), g')
        ∧ state g' = exec update_ui (state g)
        ∧ switches_cover g'
        ∧ switches_mirror g'
        ∧ (switches_drawn g → switches_drawn g').
Proof.
  intros Hc. eexists. split; [by apply update_ui_switches_run|].
  set (cur := current_proxy (state g)).
  set (g1 := set_state_world (exec get_current_proxy (state g)) g).
  assert (proxies (state g1) = proxies (state g)) as Hps.
  { unfold g1, exec. rewrite get_current_proxy_run. cbn.
    by destruct (read_registry (state g)). }
  assert (switches_cover g1) as Hc1.
  { intros i Hi. rewrite Hps in Hi. by apply Hc. }
  rewrite <- Hps. split_and!.
  - rewrite looped_state_full. unfold g1, exec.
    rewrite update_ui_run, get_current_proxy_run. cbn [snd state set_state_world].
    unfold set_flags, cur. destruct (read_registry (state g)); cbn; f_equal.
    all: apply list_eq; intros j; by rewrite list_lookup_imap, list_lookup_fmap.
  - by apply looped_cover.
  - clearbody g1. intros i p'. unfold looped. cbn [state proxy_toggles proxies set_proxies].
    rewrite list_lookup_imap, map_lookup_imap.
    destruct (proxies (state g1) !! i) as [p|] eqn:Hp; [cbn|done].
    pose proof (lookup_lt_Some _ _ _ Hp) as Hi.
    destruct (Hc1 i Hi) as [t Ht]. rewrite Ht. cbn.
    rewrite bool_decide_true by done. intros [= <-].
    eexists. split; [done|]. by rewrite is_on_set_state.
  - intros Hd. apply looped_drawn.
    + intros _ p t. apply shown_set_state.
    + intros i t Ht. by apply (Hd i t).
Qed.

(** [toggle_proxy] with the switches, up to its closing [update_ui]. *)
Lemma toggle_proxy_switches_run (index : nat) (p : proxy) (g : widget) :
  switches_cover g → proxies (state g) !! index = Some p →
  ∃ g3, toggle_proxy_switches index g = update_ui_switches g3
        ∧ toggle_proxy index (state g) = update_ui (state g3)
        ∧ switches_cover g3
        ∧ (switches_drawn g → switches_drawn g3).
Proof.
  intros Hc Hp.
  set (fp := λ (j : nat) (q : proxy),
               if bool_decide (j ≠ index) then with_enabled false q else q).
  set (ft := λ (j : nat) (_ : proxy) (t : switch),
               if bool_decide (j ≠ index) then set_state false t else t).
  set (g1 := looped fp ft (length (proxies (state g))) g).
  assert (for_each (seq 0 (length (proxies (state g))))
            (λ i, if bool_decide (i ≠ index)
                  then assign_enabled i false;; toggle_set_state i false
                  else mret ()) g = (Done (), g1)) as Hloop.
  { apply for_each_looped; [|done|done].
    intros i g' q t Hq Ht. unfold fp, ft. case_bool_decide.
    - rewrite ui_bind_run, (assign_enabled_run _ _ q) by done.
      by rewrite (toggle_set_state_run _ _ t).
    - rewrite list_insert_id, insert_id by done.
      by rewrite world_eta, widget_eta. }
  assert (state g1 = set_proxies (turn_off_others index (proxies (state g))) (state g))
    as Hstate1 by apply looped_state_full.
  assert (switches_cover g1) as Hc1 by (by apply looped_cover).
  assert (switches_drawn g → switches_drawn g1) as Hd1.
  { apply looped_drawn. intros j q t. unfold ft.
    case_bool_decide; [apply shown_set_state|done]. }
  clearbody g1.
  destruct (toggle_proxy_stages index p (state g) Hp)
    as (w2 & w3 & Hset & Hsave & Hrun & Hps3 & _ & _ & _ & _ & Hps2).
  exists (set_state_world w3 g1). split_and!.
  - unfold toggle_proxy_switches. rewrite ui_bind_run. unfold get_widget at 1.
    rewrite ui_bind_run, Hloop, ui_bind_run. unfold get_widget at 1.
    rewrite Hstate1. cbn [proxies set_proxies]. rewrite turn_off_others_lookup, Hp.
    rewrite ui_bind_run, (assign_enabled_run _ _ p)
      by (rewrite Hstate1; cbn; by rewrite turn_off_others_lookup).
    rewrite Hstate1. cbn [proxies set_proxies]. rewrite (toggled_insert _ _ _ Hp).
    rewrite ui_bind_run.
    assert ((if negb (enabled p) then lift (set_proxy (VStr (server p)))
             else lift (set_proxy VNone)) = lift (set_proxy (write_argument p))) as ->.
    { unfold write_argument. by destruct (negb (enabled p)). }
    unfold lift at 1. cbn [state set_state_world].
    change (set_proxies (toggled index (proxies (state g))) _)
      with (set_proxies (toggled index (proxies (state g))) (state g)).
    rewrite Hset. rewrite ui_bind_run. unfold get_widget at 1.
    cbn [state set_state_world]. rewrite ui_bind_run. unfold lift at 1.
    cbn [state set_state_world]. rewrite Hps2, Hsave. done.
  - done.
  - intros i Hi. cbn in *. rewrite Hps3 in Hi. apply Hc1.
    rewrite Hstate1. cbn. unfold toggled in Hi. unfold turn_off_others.
    by rewrite length_imap in *.
  - intros Hd i t Ht. by apply (Hd1 Hd i t).
Qed.

End switches.

Lemma with_new_switches_lookup (w : world) (i : nat) :
  i < length (proxies w) → proxy_toggles (with_new_switches w) !! i = Some new_switch.
Proof.
  intros Hi. unfold with_new_switches. cbn.
  apply elem_of_list_to_map_1.
  - rewrite <- list_fmap_compose.
    erewrite (list_fmap_ext _ id); [|done].
    rewrite list_fmap_id. apply NoDup_seq.
  - apply list_elem_of_fmap. exists i. split; [done|].
    apply elem_of_seq. lia.
Qed.

Lemma with_new_switches_cover (w : world) : switches_cover (with_new_switches w).
Proof. intros i Hi. rewrite with_new_switches_lookup; [by eexists|done]. Qed.

Lemma with_new_switches_drawn (w : world) : switches_drawn (with_new_switches w).
Proof.
  intros i t. unfold with_new_switches. cbn. intros Hl.
  apply elem_of_list_to_map_2, list_elem_of_fmap in Hl as (j & Heq & _).
  by simplify_eq.
Qed.

Section switch_properties.
Context {J : Json}.

(** X22. The switches follow the flags and never lead them.  For a widget
    in which every profile has its switch, [update_ui] with its calls of
    [set_state] returns normally, leaves the profiles, the registry and
    the file exactly as [update_ui] without them, and ends with every
    switch at the position of its profile's flag; canvases that showed
    their switch's position still do. *)
Theorem update_ui_switches_follow (g : widget) :
  switches_cover g →
  ui_outcome update_ui_switches g = Done ()
  ∧ state (ui_exec update_ui_switches g) = exec update_ui (state g)
  ∧ switches_mirror (ui_exec update_ui_switches g)
  ∧ (switches_drawn g → switches_drawn (ui_exec update_ui_switches g)).
Proof.
  intros Hc. destruct (update_ui_switches_spec g Hc) as (g' & Hrun & Hs & _ & Hm & Hd).
  unfold ui_outcome, ui_exec. by rewrite Hrun.
Qed.

(** X23. [toggle_proxy] with its calls of [set_state], for an index within
    bounds and a widget in which every profile has its switch, returns
    normally and leaves the profiles, the registry, the file and the trace
    exactly as [toggle_proxy] without them; at the end every switch is at
    the position of its profile's flag. *)
Theorem toggle_proxy_switches_follow (index : nat) (g : widget) :
  switches_cover g → index < length (proxies (state g)) →
  ui_outcome (toggle_proxy_switches index) g = Done ()
  ∧ state (ui_exec (toggle_proxy_switches index) g)
    = exec (toggle_proxy index) (state g)
  ∧ switches_mirror (ui_exec (toggle_proxy_switches index) g)
  ∧ (switches_drawn g → switches_drawn (ui_exec (toggle_proxy_switches index) g)).
Proof.
  intros Hc Hi. destruct (lookup_lt_is_Some_2 _ _ Hi) as [p Hp].
  destruct (toggle_proxy_switches_run index p g Hc Hp) as (g3 & Hrun & Hcore & Hc3 & Hd3).
  destruct (update_ui_switches_spec g3 Hc3) as (g' & Hrun' & Hs & _ & Hm & Hd).
  unfold ui_outcome, ui_exec. rewrite Hrun, Hrun'. cbn [fst snd].
  split_and!; [done| |done|auto].
  rewrite Hs. unfold exec. by rewrite Hcore.
Qed.

(** What a click leaves. *)
Lemma click_spec (index : nat) (g : widget) :
  switches_cover g → switches_drawn g → index < length (proxies (state g)) →
  ∃ g', click index g = (Done (), g')
        ∧ state g' = exec (toggle_proxy index) (state g)
        ∧ switches_mirror g'
        ∧ switches_drawn g'.
Proof.
  intros Hc Hd Hi. destruct (Hc index Hi) as [t Ht].
  set (g1 := set_proxy_toggles (<[index := flip_switch t]> (proxy_toggles g)) g).
  assert (switches_cover g1) as Hc1.
  { intros i Hi1. unfold g1. cbn. destruct (decide (i = index)) as [->|Hne].
    - rewrite lookup_insert_eq. by eexists.
    - rewrite lookup_insert_ne by done. by apply Hc. }
  assert (switches_drawn g1) as Hd1.
  { intros i t'. unfold g1. cbn. destruct (decide (i = index)) as [->|Hne].
    - rewrite lookup_insert_eq. by intros [= <-].
    - rewrite lookup_insert_ne by done. apply Hd. }
  destruct (lookup_lt_is_Some_2 _ _ Hi) as [p Hp].
  destruct (toggle_proxy_switches_run index p g1 Hc1 Hp) as (g3 & Hrun & Hcore & Hc3 & Hd3).
  destruct (update_ui_switches_spec g3 Hc3) as (g' & Hrun' & Hs & _ & Hm & Hd').
  exists g'. split_and!; [|  |done|auto].
  - unfold click. rewrite ui_bind_run. unfold get_widget at 1. rewrite Ht.
    rewrite ui_bind_run. unfold ui_modify at 1. fold g1. by rewrite Hrun.
  - rewrite Hs. unfold exec. change (state g) with (state g1). by rewrite Hcore.
Qed.

(** X24. After a click on a switch, whatever the system did with the
    write, every switch is at the position of its profile's flag and every
    canvas shows the position of its switch; the profiles, the registry,
    the file and the trace are those [toggle_proxy] leaves.  (Every
    profile having its switch and every canvas showing its switch's
    position beforehand.) *)
Theorem click_leaves_switches_right (index : nat) (g : widget) :
  switches_cover g → switches_drawn g → index < length (proxies (state g)) →
  ui_outcome (click index) g = Done ()
  ∧ state (ui_exec (click index) g) = exec (toggle_proxy index) (state g)
  ∧ switches_mirror (ui_exec (click index) g)
  ∧ switches_drawn (ui_exec (click index) g).
Proof.
  intros Hc Hd Hi. destruct (click_spec index g Hc Hd Hi) as (g' & Hrun & H).
  unfold ui_outcome, ui_exec. by rewrite Hrun.
Qed.

(** X25. The switch snaps back.  When the registry key cannot be opened for
    writing, and flags and switches agreed with the system before the
    click, then after the click every switch is where it was: the clicked
    one has gone back, the others have not moved. *)
Theorem click_snaps_back (index : nat) (g : widget) (j : nat) (t : switch) :
  switches_cover g → switches_drawn g → switches_mirror g →
  index < length (proxies (state g)) →
  proxies (state g) = set_flags (current_proxy (state g)) (proxies (state g)) →
  faulty (state g) (OpenKey KEY_WRITE) = true →
  j < length (proxies (state g)) →
  proxy_toggles g !! j = Some t →
  ∃ t', proxy_toggles (ui_exec (click index) g) !! j = Some t' ∧ is_on t' = is_on t.
Proof.
  intros Hc Hd Hm Hi Hsys Hopen Hj Ht.
  destruct (click_spec index g Hc Hd Hi) as (g' & Hrun & Hs & Hm' & _).
  unfold ui_exec. rewrite Hrun. cbn [snd].
  destruct (lookup_lt_is_Some_2 _ _ Hi) as [p Hp].
  assert (proxies (state g') = proxies (state g)) as Hsame.
  { rewrite Hs.
    destruct (toggle_proxy_spec index p (state g) Hp)
      as (w2 & w3 & Hset & _ & _ & _ & Hps & Hcur & _).
    destruct (set_proxy_frame (write_argument p)
                (set_proxies (toggled index (proxies (state g))) (state g)))
      as (w2' & Hset' & _ & _ & Hf2 & _ & Hreg).
    rewrite Hset in Hset'. injection Hset' as <-.
    rewrite Hps, Hcur, (current_proxy_ext (state g) w2); [by rewrite <- Hsys| |done].
    by apply Hreg. }
  destruct (lookup_lt_is_Some_2 _ _ Hj) as [q Hq].
  destruct (Hm j q Hq) as (t0 & Ht0 & Hon). rewrite Ht in Ht0. injection Ht0 as <-.
  rewrite <- Hsame in Hq. destruct (Hm' j q Hq) as (t' & Ht' & Hon').
  exists t'. split; [done|]. by rewrite Hon', Hon.
Qed.

(** X26. At start-up, when [__init__] has made a fresh switch for every
    profile and run [update_ui], every switch is at the position of its
    profile's flag and shows it, and the flags are those of a refresh. *)
Theorem startup_switches (w : world) :
  ui_outcome update_ui_switches (with_new_switches w) = Done ()
  ∧ state (ui_exec update_ui_switches (with_new_switches w)) = exec update_ui w
  ∧ switches_mirror (ui_exec update_ui_switches (with_new_switches w))
  ∧ switches_drawn (ui_exec update_ui_switches (with_new_switches w)).
Proof.
  destruct (update_ui_switches_spec (with_new_switches w) (with_new_switches_cover w))
    as (g' & Hrun & Hs & _ & Hm & Hd).
  unfold ui_outcome, ui_exec. rewrite Hrun. cbn [fst snd]. split_and!; try done.
  apply Hd, with_new_switches_drawn.
Qed.

End switch_properties.

Lemma update_ui_switches_follow_witness :
  is_on <$> proxy_toggles (ui_exec update_ui_switches (with_new_switches world_active)) !! 0
  = Some true.
Proof.
  pose proof (update_ui_switches_follow (with_new_switches world_active)
                (with_new_switches_cover world_active)) as (_ & _ & Hm & _).
  destruct (Hm 0 (Proxy "Office" "http://proxy.corp.com:912" true) eq_refl)
    as (t & Ht & Hon). rewrite Ht. cbn. by rewrite Hon.
Defined.

Lemma toggle_proxy_switches_follow_witness :
  state (ui_exec (@toggle_proxy_switches codec 0) (with_new_switches world_fresh))
  = exec (@toggle_proxy codec 0) world_fresh.
Proof.
  apply (@toggle_proxy_switches_follow codec 0 (with_new_switches world_fresh)
           (with_new_switches_cover world_fresh)).
  cbn. lia.
Defined.

Lemma click_leaves_switches_right_witness :
  ui_outcome (@click codec 1) (with_new_switches world_fresh) = Done ()
  ∧ is_on <$> proxy_toggles (ui_exec (@click codec 1) (with_new_switches world_fresh)) !! 1
    = Some true.
Proof.
  pose proof (@click_leaves_switches_right codec 1 (with_new_switches world_fresh)
                (with_new_switches_cover world_fresh)
                (with_new_switches_drawn world_fresh)) as H.
  destruct H as (Hout & _ & Hm & _); [cbn; lia|].
  split; [exact Hout|].
  destruct (Hm 1 (Proxy "VPN Proxy" "http://vpn-proxy.example.com:8080" true) eq_refl)
    as (t & Ht & Hon). rewrite Ht. cbn. by rewrite Hon.
Defined.

Lemma click_snaps_back_witness :
  ∃ t', proxy_toggles (ui_exec (@click codec 0) (with_new_switches world_read_only)) !! 0
        = Some t'
        ∧ is_on t' = false.
Proof.
  apply (@click_snaps_back codec 0 (with_new_switches world_read_only) 0 new_switch).
  - apply with_new_switches_cover.
  - apply with_new_switches_drawn.
  - intros i p Hp. exists new_switch.
    pose proof (lookup_lt_Some _ _ _ Hp) as Hi.
    split; [by apply with_new_switches_lookup|].
    destruct i as [|[|i]]; cbn in Hp; by simplify_eq.
  - cbn. lia.
  - reflexivity.
  - reflexivity.
  - cbn. lia.
  - reflexivity.
Defined.

(** * The window style *)

(** X27. The extended style [set_window_style] writes back has the two
    bits of [WS_EX_NOACTIVATE] (bit 27) and [WS_EX_TOOLWINDOW] (bit 7) set
    and every other bit as [GetWindowLongW] returned it, for negative
    values too; writing it again changes nothing. *)
Theorem new_style_bits (ex_style : Z) :
  (∀ n, Z.testbit (new_style ex_style) n
        = Z.testbit ex_style n || (n =? 27)%Z || (n =? 7)%Z)
  ∧ new_style (new_style ex_style) = new_style ex_style.
Proof.
  assert (∀ s n, Z.testbit (new_style s) n
                 = Z.testbit s n || (n =? 27)%Z || (n =? 7)%Z) as Hbits.
  { intros s n. unfold new_style, WS_EX_NOACTIVATE, WS_EX_TOOLWINDOW.
    rewrite !Z.lor_spec.
    change 134217728%Z with (2 ^ 27)%Z. change 128%Z with (2 ^ 7)%Z.
    rewrite !Z.pow2_bits_eqb by lia.
    by rewrite (Z.eqb_sym 27), (Z.eqb_sym 7). }
  split; [apply Hbits|].
  apply Z.bits_inj'. intros n _. rewrite !Hbits.
  destruct (Z.testbit ex_style n), (n =? 27)%Z, (n =? 7)%Z; done.
Qed.

(** * Calls and refreshes *)

Section refresh_after_call.
Context {J : Json}.

(** X28. After any call that returns, the flags are what the system
    reports: a refresh right after a [toggle_proxy] or an [update_ui],
    whatever happened before and whatever failed during the call, changes
    no flag. *)
Theorem update_ui_after_call (w : world) (steps : list step) (o : operation) :
  outcome (perform o) (history steps w) = Ok () →
  proxies (exec update_ui (exec (perform o) (history steps w)))
  = proxies (exec (perform o) (history steps w)).
Proof.
  intros Hout. set (w1 := history steps w) in *. clearbody w1.
  assert (proxies (exec (perform o) w1)
          = set_flags (current_proxy (exec (perform o) w1)) (proxies w1)) as Hps.
  { destruct o as [index|]; cbn [perform] in *.
    - destruct (proxies w1 !! index) as [p|] eqn:Hp.
      + by destruct (toggle_proxy_spec index p w1 Hp) as (_ & _ & _ & _ & _ & _ & ? & _).
      + apply lookup_ge_None in Hp. unfold outcome in Hout.
        by rewrite toggle_proxy_out_of_range in Hout.
    - unfold exec. rewrite update_ui_run. cbn [snd proxies set_proxies]. f_equal.
      symmetry. apply current_proxy_ext; by destruct (read_registry w1). }
  set (w2 := exec (perform o) w1) in *. clearbody w2.
  unfold exec. rewrite update_ui_run. cbn [snd proxies set_proxies].
  by rewrite Hps, set_flags_set_flags.
Qed.

End refresh_after_call.

Lemma update_ui_after_call_witness :
  proxies (exec update_ui
             (exec (@perform codec (activate 0))
                (@history codec
                   [ Call (activate 1);
                     Outside (registry_on "http://elsewhere:3128") None no_faults ]
                   world_fresh)))
  = proxies (exec (@perform codec (activate 0))
               (@history codec
                  [ Call (activate 1);
                    Outside (registry_on "http://elsewhere:3128") None no_faults ]
                  world_fresh)).
Proof.
  apply (@update_ui_after_call codec world_fresh). reflexivity.
Defined.
